(** * dcrlnhub: the RPC aggregation pipeline of the Decred Lightning hub

    A shallow embedding of the Go sources of fguisso/dcrlnhub:
    configuration loading ([loadConfig]), construction of the hub
    ([newLightningHub]), the aggregation function [fetchHomePage] and the
    page handler [HomePage], followed by the properties of these
    functions. *)

From Stdlib Require Import ZArith List String Ascii Bool Lia.
From Stdlib Require Import DecimalString.
From Stdlib Require Import Permutation.
Import ListNotations.
Local Open Scope string_scope.
Local Open Scope Z_scope.

Set Implicit Arguments.

(** ** Go's [int64]: integers with two's-complement wrap-around *)

Module Int64.

Definition modulus : Z := 2 ^ 64.
Definition min_signed : Z := - 2 ^ 63.
Definition max_signed : Z := 2 ^ 63 - 1.

(** The value an [int64] register holds after an exact result [z]. *)
Definition wrap (z : Z) : Z := (z - min_signed) mod modulus + min_signed.

(** Go's [+] on [int64]. *)
Definition add (a b : Z) : Z := wrap (a + b).

Definition in_range (z : Z) : Prop := min_signed <= z <= max_signed.

End Int64.

(** ** Go's [strings] package, as far as the program uses it *)

Module strings.

(** [HasPrefix s prefix]. *)
Fixpoint HasPrefix (s prefix : string) : bool :=
  match prefix with
  | EmptyString => true
  | String p prefix' =>
      match s with
      | EmptyString => false
      | String c s' => Ascii.eqb c p && HasPrefix s' prefix'
      end
  end.

(** [s[n:]] for [n <= len(s)]. *)
Fixpoint drop (n : nat) (s : string) : string :=
  match n with
  | O => s
  | S n' => match s with
            | EmptyString => EmptyString
            | String _ s' => drop n' s'
            end
  end.

(** [Replace s old new 1]: the leftmost occurrence of [old] in [s] is
    replaced by [new]; [s] is returned as it is when [old] does not
    occur in it. *)
Fixpoint Replace1 (s old new : string) : string :=
  if HasPrefix s old then new ++ drop (String.length old) s
  else match s with
       | EmptyString => EmptyString
       | String c s' => String c (Replace1 s' old new)
       end.

End strings.

(** ** Errors and results

    Every error the program builds comes from [fmt.Errorf] with [%v]
    verbs, so what an error carries is its message. *)

Definition error : Type := string.

(** A Go pair [(v, err)] with exactly one side meaningful. *)
Inductive result (A : Type) : Type :=
| Success (v : A)
| Failure (err : error).
Arguments Success {A} v.
Arguments Failure {A} err.

Definition is_success {A} (r : result A) : bool :=
  match r with Success _ => true | Failure _ => false end.

(** ** The messages of dcrlnd's RPC surface (package [lnrpc]) *)

Module lnrpc.

Record Chain : Type := { Chain_ : string; Network : string }.

Record GetInfoResponse : Type := {
  IdentityPubkey : string;
  NumActiveChannels : N;          (* uint32 *)
  Uris : list string;
  Chains : list Chain
}.

Record Channel : Type := {
  Active : bool;
  RemotePubkey : string;
  ChannelPoint : string;
  Capacity : Z                    (* int64 *)
}.

Record ListChannelsResponse : Type := { Channels : list Channel }.

Record WalletBalanceResponse : Type := {
  TotalBalance : Z;
  ConfirmedBalance : Z;           (* int64 *)
  UnconfirmedBalance : Z
}.

Inductive method : Type := MGetInfo | MListChannels | MWalletBalance.

(** The client interface.  The node answers as a function of the number
    of calls it has served so far, so that two fetches may see different
    states of the node. *)
Record LightningClient : Type := {
  GetInfo : nat -> result GetInfoResponse;
  ListChannels : nat -> result ListChannelsResponse;
  WalletBalance : nat -> result WalletBalanceResponse
}.

End lnrpc.

(** ** The view model *)

Module templateContext.

Record t : Type := {
  NodeAddr : string;
  Network : string;
  ChannelsCount : N;              (* uint32 *)
  Capacity : Z;                   (* int64 *)
  Balance : Z;                    (* dcrutil.Amount, an int64 *)
  ActiveChannels : list lnrpc.Channel;
  DonationAddr : string;
  DonationInvoice : string
}.

End templateContext.

(** ** Configuration *)

Module config.

Record t : Type := {
  ConfigFile : string;
  BindAddr : string;
  RPCHost : string;
  TLSCertPath : string;
  MacaroonPath : string;
  UseLeHTTPS : bool;
  Domain : string;
  Network : string;
  MainNet : bool;
  TestNet : bool;
  SimNet : bool
}.

End config.

(** ** Effects: the trace of a run

    A run appends to a trace the RPC calls it issues (with whether the
    node answered with an error), the log lines it writes and what it sends
    to the HTTP response.  A Go panic ends the run. *)

Inductive level : Type := LvlInfo | LvlWarn | LvlError | LvlCritical.

Inductive event : Type :=
| EvRPC (m : lnrpc.method) (failed : bool)
| EvLog (l : level) (msg : string)
| EvHTTPError (body : string) (code : Z)
| EvExecute (name : string) (data : templateContext.t)
| EvServeFile (path : string)
| EvRedirect (location : string) (code : Z).

Definition trace : Type := list event.

Inductive outcome (A : Type) : Type :=
| Done (a : A)
| Panic (msg : string).
Arguments Done {A} a.
Arguments Panic {A} msg.

Definition M (A : Type) : Type := trace -> outcome A * trace.

Definition ret {A} (a : A) : M A := fun tr => (Done a, tr).

Definition bind {A B} (m : M A) (k : A -> M B) : M B :=
  fun tr =>
    match m tr with
    | (Done a, tr') => k a tr'
    | (Panic msg, tr') => (Panic msg, tr')
    end.

Definition panic {A} (msg : string) : M A := fun tr => (Panic msg, tr).

Definition emit (e : event) : M unit := fun tr => (Done tt, (tr ++ [e])%list).

Declare Scope go_scope.
Delimit Scope go_scope with go.
Notation "x <- m ;; k" := (bind m (fun x => k))
  (at level 61, m at next level, right associativity) : go_scope.
Notation "m ;;; k" := (bind m (fun _ => k))
  (at level 61, right associativity) : go_scope.
Local Open Scope go_scope.

Definition is_rpc (e : event) : bool :=
  match e with EvRPC _ _ => true | _ => false end.

(** Number of calls the node has served in a trace. *)
Definition served (tr : trace) : nat := List.length (filter is_rpc tr).

(** One call of a client method: the node's answer at this point of the
    trace, recorded in the trace. *)
Definition call {A} (m : lnrpc.method) (answer : nat -> result A)
  : M (result A) :=
  fun tr =>
    let r := answer (served tr) in
    (Done r, (tr ++ [EvRPC m (negb (is_success r))])%list).

Module log.
Definition Warn (msg : string) : M unit := emit (EvLog LvlWarn msg).
Definition Error (msg : string) : M unit := emit (EvLog LvlError msg).
Definition Errorf (msg : string) : M unit := emit (EvLog LvlError msg).
Definition Criticalf (msg : string) : M unit := emit (EvLog LvlCritical msg).
End log.

(** [fmt.Sprint] of an unsigned integer. *)
Definition sprint_uint (n : N) : string :=
  NilZero.string_of_uint (N.to_uint n).

(** ** The aggregation function [fetchHomePage] *)

(** The loop [for _, channel := range chans { totalCapacity += channel.Capacity }]
    started from the accumulator [acc]. *)
Fixpoint sumCapacity (acc : Z) (chans : list lnrpc.Channel) : Z :=
  match chans with
  | [] => acc
  | channel :: rest => sumCapacity (Int64.add acc (lnrpc.Capacity channel)) rest
  end.

Definition mismatchError (activeNetwork cfgNetwork : string) : error :=
  "dcrlnd and dcrlnhub are set in different networks <dcrlnd: "
    ++ activeNetwork ++ " / dcrlnhub: " ++ cfgNetwork ++ ">".

Definition indexPanic : string :=
  "runtime error: index out of range [0] with length 0".

Definition fetchHomePage (lnd : lnrpc.LightningClient) (cfg : config.t)
  : M (result templateContext.t) :=
  r <- call lnrpc.MGetInfo (lnrpc.GetInfo lnd) ;;
  match r with
  | Failure err => ret (Failure ("rpc GetInfo() failed: " ++ err))
  | Success nodeInfo =>
      match lnrpc.Chains nodeInfo with
      | [] => panic indexPanic
      | chain0 :: _ =>
          let activeNetwork := lnrpc.Network chain0 in
          if negb (String.eqb activeNetwork (config.Network cfg)) then
            ret (Failure (mismatchError activeNetwork (config.Network cfg)))
          else
            nodeAddr <-
              match lnrpc.Uris nodeInfo with
              | [] =>
                  log.Warn ("nodeInfo did not include a URI. external_ip "
                              ++ "config of dcrlnd is probably not set") ;;;
                  ret ""
              | uri0 :: _ => ret uri0
              end ;;
            r <- call lnrpc.MListChannels (lnrpc.ListChannels lnd) ;;
            match r with
            | Failure err =>
                ret (Failure ("rpc ListChannels() failed: " ++ err))
            | Success listChanRes =>
                let totalCapacity :=
                  sumCapacity 0 (lnrpc.Channels listChanRes) in
                r <- call lnrpc.MWalletBalance (lnrpc.WalletBalance lnd) ;;
                match r with
                | Failure err =>
                    ret (Failure ("rpc WalletBalance() failed: " ++ err))
                | Success walletBalanceRes =>
                    log.Warn (sprint_uint (lnrpc.NumActiveChannels nodeInfo)) ;;;
                    ret (Success {|
                      templateContext.NodeAddr := nodeAddr;
                      templateContext.Network := activeNetwork;
                      templateContext.ChannelsCount :=
                        lnrpc.NumActiveChannels nodeInfo;
                      templateContext.Capacity := totalCapacity;
                      templateContext.Balance :=
                        lnrpc.ConfirmedBalance walletBalanceRes;
                      templateContext.ActiveChannels :=
                        lnrpc.Channels listChanRes;
                      templateContext.DonationAddr := "";
                      templateContext.DonationInvoice := ""
                    |})
                end
            end
      end
  end.


(** ** The hub and its construction *)

(** What the process reaches outside itself for when it builds the hub:
    the file system, the TLS and macaroon libraries and the gRPC dialer.
    [cleanAndExpandPath] is the repository's path normaliser. *)

Inductive TransportCredentials : Type := certPool (pem : string).
Inductive Macaroon : Type := macaroonOf (raw : list Byte.byte).

(** A parsed set of HTML templates: the names it can look up. *)
Definition Template : Type := list string.

Definition Lookup (t : Template) (name : string) : option string :=
  if existsb (String.eqb name) t then Some name else None.

Record system : Type := {
  cleanAndExpandPath : string -> string;
  NewClientTLSFromFile : string -> result TransportCredentials;
  ReadFile : string -> result (list Byte.byte);
  UnmarshalBinary : list Byte.byte -> result Macaroon;
  Dial : string -> TransportCredentials -> Macaroon
         -> result lnrpc.LightningClient
}.

Module lightningHub.

Record t : Type := {
  lnd : lnrpc.LightningClient;
  template : Template;
  cfg : config.t;
  context : templateContext.t
}.

End lightningHub.

Definition newLightningHub (sys : system) (cfg : config.t)
    (template : Template) : M (result lightningHub.t) :=
  let tlsCertPath := cleanAndExpandPath sys (config.TLSCertPath cfg) in
  match NewClientTLSFromFile sys tlsCertPath with
  | Failure err => ret (Failure ("unable to read cert file: " ++ err))
  | Success creds =>
      let macPath := cleanAndExpandPath sys (config.MacaroonPath cfg) in
      match ReadFile sys macPath with
      | Failure err => ret (Failure err)
      | Success macBytes =>
          match UnmarshalBinary sys macBytes with
          | Failure err => ret (Failure err)
          | Success mac =>
              match Dial sys (config.RPCHost cfg) creds mac with
              | Failure err =>
                  ret (Failure ("unable to dial to dcrlnd's gRPC server: "
                                  ++ err))
              | Success lnd =>
                  r <- fetchHomePage lnd cfg ;;
                  match r with
                  | Failure err =>
                      log.Errorf err ;;;
                      ret (Failure ("unable to get initial info: " ++ err))
                  | Success homeCtx =>
                      ret (Success {|
                        lightningHub.lnd := lnd;
                        lightningHub.template := template;
                        lightningHub.cfg := cfg;
                        lightningHub.context := homeCtx
                      |})
                  end
              end
          end
      end
  end.

(** ** Serving a request *)

Module http.

Record Request : Type := { Method : string; Path : string }.

Definition MethodGet : string := "GET".
Definition StatusInternalServerError : Z := 500.
Definition StatusMethodNotAllowed : Z := 405.
Definition StatusNotFound : Z := 404.
Definition StatusMovedPermanently : Z := 301.

Definition Error (body : string) (code : Z) : M unit :=
  emit (EvHTTPError body code).

End http.

Definition Execute (name : string) (data : templateContext.t) : M unit :=
  emit (EvExecute name data).

Definition HomePage (h : lightningHub.t) (r : http.Request) : M unit :=
  match Lookup (lightningHub.template h) "index.html" with
  | None =>
      log.Error "unable to lookup index" ;;;
      http.Error "500 Internal Server Error." http.StatusInternalServerError
  | Some homeTemplate =>
      res <- fetchHomePage (lightningHub.lnd h) (lightningHub.cfg h) ;;
      match res with
      | Failure _ =>
          log.Error "unable to fetch home state" ;;;
          http.Error "unable to render home page"
                     http.StatusInternalServerError
      | Success homeInfo =>
          if String.eqb (http.Method r) http.MethodGet then
            Execute homeTemplate homeInfo
          else
            http.Error "Method not allowed!" http.StatusMethodNotAllowed
      end
  end.

(** The router [main] builds with gorilla/mux:
    [r.HandleFunc("/", hub.HomePage).Methods("POST", "GET")] and the
    static file server under ["/static/"].

    The router first brings the path to its canonical form and, when that
    differs from the path of the request, answers 301 with the canonical
    path as location, before it looks at any route.  Then a request whose
    path matches a route but whose method does not is answered by the
    router itself with 405, and a request matching no route with 404.
    The requests of the model carry no query, so the location is the
    canonical path. *)
Definition homeMethods : list string := ["POST"; "GET"].

Module mux.

(** The elements of a path between its slashes. *)
Fixpoint split (s : string) : list string :=
  match s with
  | EmptyString => [EmptyString]
  | String c s' =>
      if Ascii.eqb c "/" then EmptyString :: split s'
      else match split s' with
           | e :: es => String c e :: es
           | [] => [String c EmptyString]
           end
  end.

(** One element of a rooted path against the elements kept so far, the
    last one first: empty elements and [.] are dropped, [..] takes the
    last element back, and stays at the root when there is none. *)
Definition step (kept : list string) (e : string) : list string :=
  if String.eqb e "" || String.eqb e "." then kept
  else if String.eqb e ".." then tl kept
  else e :: kept.

(** [path.Clean] on a rooted path. *)
Definition Clean (p : string) : string :=
  String "/" (String.concat "/" (rev (fold_left step (split p) []))).

Fixpoint lastIsSlash (s : string) : bool :=
  match s with
  | EmptyString => false
  | String c EmptyString => Ascii.eqb c "/"
  | String _ s' => lastIsSlash s'
  end.

(** The router's [cleanPath]: the empty path is the root, a path is made
    rooted, cleaned, and given back the trailing slash it had. *)
Definition cleanPath (p : string) : string :=
  if String.eqb p "" then "/"
  else
    let p := if strings.HasPrefix p "/" then p else String "/" p in
    let np := Clean p in
    if lastIsSlash p && negb (String.eqb np "/") then np ++ "/" else np.

End mux.

(** [Router.ServeHTTP], for a router that cleans paths with [clean];
    [mux.cleanPath] is the router's own function. *)
Definition ServeHTTP (clean : string -> string) (hub : lightningHub.t)
    (r : http.Request) : M unit :=
  let p := clean (http.Path r) in
  if negb (String.eqb p (http.Path r)) then
    emit (EvRedirect p http.StatusMovedPermanently)
  else if String.eqb (http.Path r) "/" then
    if existsb (String.eqb (http.Method r)) homeMethods then HomePage hub r
    else http.Error "" http.StatusMethodNotAllowed
  else if strings.HasPrefix (http.Path r) "/static/" then
    emit (EvServeFile (http.Path r))
  else http.Error "404 page not found" http.StatusNotFound.

(** The calls to the node a run adds to a trace: the events of [tr']
    after its first [length tr] ones that are RPC calls. *)
Definition rpcs_since (tr tr' : trace) : list event :=
  filter is_rpc (skipn (List.length tr) tr').

(** ** Loading the configuration: [loadConfig] *)

(** The options go-flags can set: the fields of [config] that carry a
    [long] tag.  [Network] carries none, so no command line and no
    configuration file reaches it. *)
Module flags.

Inductive setting : Type :=
| ConfigFile (v : string)
| BindAddr (v : string)
| RPCHost (v : string)
| TLSCertPath (v : string)
| MacaroonPath (v : string)
| UseLeHTTPS (v : bool)
| Domain (v : string)
| MainNet (v : bool)
| TestNet (v : bool)
| SimNet (v : bool).

Definition set (c : config.t) (o : setting) : config.t :=
  let '(config.Build_t cf ba rh tc mp le dm nw mn tn sn) := c in
  match o with
  | ConfigFile v => config.Build_t v ba rh tc mp le dm nw mn tn sn
  | BindAddr v => config.Build_t cf v rh tc mp le dm nw mn tn sn
  | RPCHost v => config.Build_t cf ba v tc mp le dm nw mn tn sn
  | TLSCertPath v => config.Build_t cf ba rh v mp le dm nw mn tn sn
  | MacaroonPath v => config.Build_t cf ba rh tc v le dm nw mn tn sn
  | UseLeHTTPS v => config.Build_t cf ba rh tc mp v dm nw mn tn sn
  | Domain v => config.Build_t cf ba rh tc mp le v nw mn tn sn
  | MainNet v => config.Build_t cf ba rh tc mp le dm nw v tn sn
  | TestNet v => config.Build_t cf ba rh tc mp le dm nw mn v sn
  | SimNet v => config.Build_t cf ba rh tc mp le dm nw mn tn v
  end.

(** The parser stores the options in the order it meets them. *)
Definition store (c : config.t) (os : list setting) : config.t :=
  fold_left set os c.

(** [flags.Error]: [help] tells [ErrHelp] from the other error types. *)
Record Error : Type := { help : bool; message : string }.

(** What [ParseFile] leaves behind. *)
Inductive ini : Type :=
| IniOptions (os : list setting)
| IniPathError (err : error)       (* *os.PathError: no such file *)
| IniError (err : error).

End flags.

(** The process's surroundings at start-up.  [preParse] is what the
    first pass over the command line leaves: its error, if any, and the
    options it stored; [Parse] is the final pass: the options it stored and
    the remaining arguments or its error.  [MkdirAll] gives the error that
    is reported, after the symlink hint has been substituted for it where
    it applies.  [initLogRotator] and [setLogLevels] belong to the
    repository's logging file. *)
Record startup : Type := {
  defaultDataDir : string;          (* dcrutil.AppDataDir("dcrlnhub", false) *)
  defaultDcrlndDir : string;        (* dcrutil.AppDataDir("dcrlnd", false) *)
  Join : list string -> string;     (* filepath.Join *)
  preParse : option flags.Error * list flags.setting;
  ParseFile : string -> flags.ini;
  Parse : list flags.setting * result (list string);
  MkdirAll : string -> option error;
  initLogRotator : string -> M unit;
  setLogLevels : string -> M unit
}.

Definition defaultConfigFilename : string := "dcrlnhub.conf".
Definition defaultLogLevel : string := "info".
Definition defaultLogFilename : string := "dcrlnhub.log".
Definition defaultBindAddr : string := ":80".
Definition defaultUseLeHTTPS : bool := false.
Definition defaultDcrlndRPCHost : string := "127.0.0.1:10009".

Definition defaultConfigFile (env : startup) : string :=
  Join env [defaultDataDir env; defaultConfigFilename].
Definition defaultLogPath (env : startup) : string :=
  Join env [defaultDataDir env; "logs"; "decred"; "testnet";
            defaultLogFilename].
Definition defaultDcrlndTLSCertPath (env : startup) : string :=
  Join env [defaultDcrlndDir env; "tls.cert"].
Definition defaultDcrlndMacaroonPath (env : startup) : string :=
  Join env [defaultDcrlndDir env; "data"; "chain"; "decred"; "testnet";
            "admin.macaroon"].

Definition setNetwork (c : config.t) (v : string) : config.t :=
  let '(config.Build_t cf ba rh tc mp le dm _ mn tn sn) := c in
  config.Build_t cf ba rh tc mp le dm v mn tn sn.

Definition setPaths (c : config.t) (cert mac : string) : config.t :=
  let '(config.Build_t cf ba rh _ _ le dm nw mn tn sn) := c in
  config.Build_t cf ba rh cert mac le dm nw mn tn sn.

(** The network flags: the number of flags set and the configuration
    with [Network] assigned by each flag that is set, in the order
    mainnet, testnet, simnet. *)
Definition selectNetwork (cfg : config.t) : nat * config.t :=
  let numNets := 0%nat in
  let '(numNets, cfg) :=
    if config.MainNet cfg then (S numNets, setNetwork cfg "mainnet")
    else (numNets, cfg) in
  let '(numNets, cfg) :=
    if config.TestNet cfg then (S numNets, setNetwork cfg "testnet")
    else (numNets, cfg) in
  let '(numNets, cfg) :=
    if config.SimNet cfg then (S numNets, setNetwork cfg "simnet")
    else (numNets, cfg) in
  (numNets, cfg).

(** The literal [config{...}] that [loadConfig] starts from. *)
Definition defaultConfig (env : startup) : config.t := {|
  config.ConfigFile := "";
  config.BindAddr := defaultBindAddr;
  config.RPCHost := "";
  config.TLSCertPath := defaultDcrlndTLSCertPath env;
  config.MacaroonPath := defaultDcrlndMacaroonPath env;
  config.UseLeHTTPS := defaultUseLeHTTPS;
  config.Domain := "";
  config.Network := "";
  config.MainNet := false;
  config.TestNet := false;
  config.SimNet := false
|}.

(** [loadConfig] returns the configuration with the remaining arguments,
    or an error; the first component of the result is the value the
    package variable [defaultLogPath] holds afterwards. *)
Definition loadConfig (env : startup)
  : M (string * result (config.t * list string)) :=
  let logPath := defaultLogPath env in
  let cfg := defaultConfig env in
  let preCfg := flags.store cfg (snd (preParse env)) in
  match fst (preParse env) with
  | Some {| flags.help := true; flags.message := err |} =>
      ret (logPath, Failure err)
  | _ =>
      let configFile :=
        if String.eqb (config.ConfigFile preCfg) "" then defaultConfigFile env
        else config.ConfigFile preCfg in
      match ParseFile env configFile with
      | flags.IniError err => ret (logPath, Failure err)
      | fromFile =>
          let '(cfg, configFileError) :=
            match fromFile with
            | flags.IniOptions os => (flags.store cfg os, None)
            | flags.IniPathError err => (cfg, Some err)
            | flags.IniError _ => (cfg, None)
            end in
          let cfg := flags.store cfg (fst (Parse env)) in
          match snd (Parse env) with
          | Failure err => ret (logPath, Failure err)
          | Success remainingArgs =>
              let funcName := "loadConfig" in
              let '(numNets, cfg) := selectNetwork cfg in
              if (1 <? numNets)%nat then
                ret (logPath,
                     Failure (funcName ++ ", mainnet, testnet and simnet "
                                ++ "params can't be used together -- "
                                ++ "choose one of the three"))
              else
                let cfg :=
                  setPaths cfg
                    (strings.Replace1 (config.TLSCertPath cfg) "testnet"
                                      (config.Network cfg))
                    (strings.Replace1 (config.MacaroonPath cfg) "testnet"
                                      (config.Network cfg)) in
                match MkdirAll env (defaultDataDir env) with
                | Some err =>
                    ret (logPath,
                         Failure (funcName
                                    ++ ": Failed to create home directory: "
                                    ++ err))
                | None =>
                    let logPath :=
                      strings.Replace1 logPath "testnet"
                                       (config.Network cfg) in
                    initLogRotator env logPath ;;;
                    setLogLevels env defaultLogLevel ;;;
                    if config.UseLeHTTPS cfg
                       && String.eqb (config.Domain cfg) "" then
                      ret (logPath,
                           Failure (funcName ++ ": domain must be specified "
                                      ++ "to use Let's Encrypt HTTPS"))
                    else
                      match configFileError with
                      | Some err => log.Warn err
                      | None => ret tt
                      end ;;;
                      ret (logPath, Success (cfg, remainingArgs))
                end
          end
      end
  end.

(** ** Start-up *)

(** [main] up to the construction of the router: the hub that is going to
    be served, or [None] when the process ends instead ([return] after a
    failed [loadConfig], [os.Exit(1)] after a failed [newLightningHub]).
    [ParseGlob] is the template library reading the files of a pattern;
    [template.Must] panics with the error when that fails. *)
Definition main (env : startup) (sys : system)
    (ParseGlob : string -> result Template) : M (option lightningHub.t) :=
  r <- loadConfig env ;;
  match snd r with
  | Failure _ => ret None
  | Success (cfg, _) =>
      match ParseGlob "static/*.html" with
      | Failure err => panic err
      | Success hubTemplate =>
          h <- newLightningHub sys cfg hubTemplate ;;
          match h with
          | Failure err =>
              log.Criticalf ("unable to create hub: " ++ err) ;;;
              ret None
          | Success hub => ret (Some hub)
          end
      end
  end.

(** ** Reference notions the properties are stated with *)

(** The exact sum of the capacities of a list of channels. *)
Definition capacitySum (chans : list lnrpc.Channel) : Z :=
  fold_right (fun c acc => lnrpc.Capacity c + acc) 0 chans.

(** The first chain entry's network, when there is one. *)
Definition reportedNetwork (info : lnrpc.GetInfoResponse) : option string :=
  match lnrpc.Chains info with
  | [] => None
  | chain0 :: _ => Some (lnrpc.Network chain0)
  end.

(** What the URI step of [fetchHomePage] logs and yields. *)
Definition uriWarning : event :=
  EvLog LvlWarn ("nodeInfo did not include a URI. external_ip "
                   ++ "config of dcrlnd is probably not set").

Definition uriEvents (info : lnrpc.GetInfoResponse) : list event :=
  match lnrpc.Uris info with [] => [uriWarning] | _ :: _ => [] end.

Definition firstUri (info : lnrpc.GetInfoResponse) : string :=
  match lnrpc.Uris info with [] => "" | uri0 :: _ => uri0 end.

(** The runs of [fetchHomePage] from a trace [tr], case by case: the
    outcome and the events the run adds. *)
Inductive fetch_run (lnd : lnrpc.LightningClient) (cfg : config.t)
    (tr : trace)
  : outcome (result templateContext.t) -> list event -> Prop :=
| run_info_failed err :
    lnrpc.GetInfo lnd (served tr) = Failure err ->
    fetch_run lnd cfg tr
      (Done (Failure ("rpc GetInfo() failed: " ++ err)))
      [EvRPC lnrpc.MGetInfo true]
| run_no_chain info :
    lnrpc.GetInfo lnd (served tr) = Success info ->
    reportedNetwork info = None ->
    fetch_run lnd cfg tr (Panic indexPanic) [EvRPC lnrpc.MGetInfo false]
| run_mismatch info net :
    lnrpc.GetInfo lnd (served tr) = Success info ->
    reportedNetwork info = Some net ->
    net <> config.Network cfg ->
    fetch_run lnd cfg tr
      (Done (Failure (mismatchError net (config.Network cfg))))
      [EvRPC lnrpc.MGetInfo false]
| run_channels_failed info err :
    lnrpc.GetInfo lnd (served tr) = Success info ->
    reportedNetwork info = Some (config.Network cfg) ->
    lnrpc.ListChannels lnd (S (served tr)) = Failure err ->
    fetch_run lnd cfg tr
      (Done (Failure ("rpc ListChannels() failed: " ++ err)))
      (EvRPC lnrpc.MGetInfo false :: uriEvents info
         ++ [EvRPC lnrpc.MListChannels true])%list
| run_balance_failed info chans err :
    lnrpc.GetInfo lnd (served tr) = Success info ->
    reportedNetwork info = Some (config.Network cfg) ->
    lnrpc.ListChannels lnd (S (served tr)) = Success chans ->
    lnrpc.WalletBalance lnd (S (S (served tr))) = Failure err ->
    fetch_run lnd cfg tr
      (Done (Failure ("rpc WalletBalance() failed: " ++ err)))
      (EvRPC lnrpc.MGetInfo false :: uriEvents info
         ++ [EvRPC lnrpc.MListChannels false;
             EvRPC lnrpc.MWalletBalance true])%list
| run_snapshot info chans bal :
    lnrpc.GetInfo lnd (served tr) = Success info ->
    reportedNetwork info = Some (config.Network cfg) ->
    lnrpc.ListChannels lnd (S (served tr)) = Success chans ->
    lnrpc.WalletBalance lnd (S (S (served tr))) = Success bal ->
    fetch_run lnd cfg tr
      (Done (Success {|
         templateContext.NodeAddr := firstUri info;
         templateContext.Network := config.Network cfg;
         templateContext.ChannelsCount := lnrpc.NumActiveChannels info;
         templateContext.Capacity := sumCapacity 0 (lnrpc.Channels chans);
         templateContext.Balance := lnrpc.ConfirmedBalance bal;
         templateContext.ActiveChannels := lnrpc.Channels chans;
         templateContext.DonationAddr := "";
         templateContext.DonationInvoice := ""
       |}))
      (EvRPC lnrpc.MGetInfo false :: uriEvents info
         ++ [EvRPC lnrpc.MListChannels false;
             EvRPC lnrpc.MWalletBalance false;
             EvLog LvlWarn (sprint_uint (lnrpc.NumActiveChannels info))])%list.

(** [dcrutil.MaxAmount]: the maximum supply, 21e6 coins of 1e8 atoms. *)
Definition MaxAmount : Z := 21000000 * 100000000.

(** What a caller sees of a run: a snapshot, a failure with its message,
    or a panic. *)
Inductive verdict : Type :=
| Snapshot
| Failed (err : error)
| Panicked (msg : string).

Definition verdictOf {A} (o : outcome (result A)) : verdict :=
  match o with
  | Done (Success _) => Snapshot
  | Done (Failure err) => Failed err
  | Panic msg => Panicked msg
  end.

(** The client [lnd] with the URI list of every [GetInfo] answer replaced
    by [uris]. *)
Definition withUris (uris : list string) (lnd : lnrpc.LightningClient)
  : lnrpc.LightningClient := {|
  lnrpc.GetInfo := fun t =>
    match lnrpc.GetInfo lnd t with
    | Success info =>
        Success {|
          lnrpc.IdentityPubkey := lnrpc.IdentityPubkey info;
          lnrpc.NumActiveChannels := lnrpc.NumActiveChannels info;
          lnrpc.Uris := uris;
          lnrpc.Chains := lnrpc.Chains info
        |}
    | Failure err => Failure err
    end;
  lnrpc.ListChannels := lnrpc.ListChannels lnd;
  lnrpc.WalletBalance := lnrpc.WalletBalance lnd
|}.

(** Positions of a substring: [old] occurs in [s] at index [k], and
    [k] is the index of its leftmost occurrence. *)
Definition occursAt (s old : string) (k : nat) : bool :=
  strings.HasPrefix (strings.drop k s) old.

Definition firstAt (s old : string) (k : nat) : Prop :=
  occursAt s old k = true
  /\ forall j, (j < k)%nat -> occursAt s old j = false.

(** [s[:n]]. *)
Fixpoint take (n : nat) (s : string) : string :=
  match n, s with
  | S n', String c s' => String c (take n' s')
  | _, _ => EmptyString
  end.

(** The events a run adds to a trace. *)
Definition added (tr tr' : trace) : list event := skipn (List.length tr) tr'.

(** The verdict of [fetchHomePage] read off the node's answers, the
    [GetInfo] call being the node's call number [t]. *)
Definition expectedVerdict (lnd : lnrpc.LightningClient) (cfg : config.t)
    (t : nat) : verdict :=
  match lnrpc.GetInfo lnd t with
  | Failure err => Failed ("rpc GetInfo() failed: " ++ err)
  | Success info =>
      match reportedNetwork info with
      | None => Panicked indexPanic
      | Some net =>
          if String.eqb net (config.Network cfg) then
            match lnrpc.ListChannels lnd (S t) with
            | Failure err => Failed ("rpc ListChannels() failed: " ++ err)
            | Success _ =>
                match lnrpc.WalletBalance lnd (S (S t)) with
                | Failure err => Failed ("rpc WalletBalance() failed: " ++ err)
                | Success _ => Snapshot
                end
            end
          else Failed (mismatchError net (config.Network cfg))
      end
  end.

(** The configuration file [loadConfig] reads, the options a parsed
    file holds and the configuration as the two parsers leave it. *)
Definition configFileOf (env : startup) : string :=
  let preCfg := flags.store (defaultConfig env) (snd (preParse env)) in
  if String.eqb (config.ConfigFile preCfg) "" then defaultConfigFile env
  else config.ConfigFile preCfg.

Definition fileOptions (i : flags.ini) : list flags.setting :=
  match i with flags.IniOptions os => os | _ => [] end.

Definition parsedConfig (env : startup) : config.t :=
  flags.store
    (flags.store (defaultConfig env)
                 (fileOptions (ParseFile env (configFileOf env))))
    (fst (Parse env)).

(** An option that names a certificate or macaroon path. *)
Definition namesPath (o : flags.setting) : bool :=
  match o with
  | flags.TLSCertPath _ | flags.MacaroonPath _ => true
  | _ => false
  end.

(** ** Nodes, configurations and requests used as examples *)

Module Examples.

(** A node that gives the same answers at every call. *)
Definition fixedNode (info : result lnrpc.GetInfoResponse)
    (chans : result lnrpc.ListChannelsResponse)
    (bal : result lnrpc.WalletBalanceResponse) : lnrpc.LightningClient := {|
  lnrpc.GetInfo := fun _ => info;
  lnrpc.ListChannels := fun _ => chans;
  lnrpc.WalletBalance := fun _ => bal
|}.

Definition infoOn (network : string) (uris : list string) (n : N)
  : lnrpc.GetInfoResponse := {|
  lnrpc.IdentityPubkey := "02c7";
  lnrpc.NumActiveChannels := n;
  lnrpc.Uris := uris;
  lnrpc.Chains := [{| lnrpc.Chain_ := "decred"; lnrpc.Network := network |}]
|}.

Definition noChainInfo : lnrpc.GetInfoResponse := {|
  lnrpc.IdentityPubkey := "02c7";
  lnrpc.NumActiveChannels := 0;
  lnrpc.Uris := [];
  lnrpc.Chains := []
|}.

Definition channelOf (peer : string) (capacity : Z) : lnrpc.Channel := {|
  lnrpc.Active := true;
  lnrpc.RemotePubkey := peer;
  lnrpc.ChannelPoint := peer ++ ":0";
  lnrpc.Capacity := capacity
|}.

Definition twoChannels : lnrpc.ListChannelsResponse :=
  {| lnrpc.Channels := [channelOf "03aa" 500000; channelOf "03bb" 1500000] |}.

Definition hugeChannels : lnrpc.ListChannelsResponse :=
  {| lnrpc.Channels :=
       [channelOf "03aa" 9223372036854775807; channelOf "03bb" 1] |}.

Definition balanceOf (confirmed : Z) : lnrpc.WalletBalanceResponse := {|
  lnrpc.TotalBalance := confirmed;
  lnrpc.ConfirmedBalance := confirmed;
  lnrpc.UnconfirmedBalance := 0
|}.

Definition uri : string := "02c7@203.0.113.7:9735".

(** The node of the testnet scenario: two channels, 750000 atoms. *)
Definition testnetNode : lnrpc.LightningClient :=
  fixedNode (Success (infoOn "testnet" [uri] 2)) (Success twoChannels)
            (Success (balanceOf 750000)).

Definition mainnetNode : lnrpc.LightningClient :=
  fixedNode (Success (infoOn "mainnet" [uri] 2)) (Success twoChannels)
            (Success (balanceOf 750000)).

Definition privateNode : lnrpc.LightningClient :=
  fixedNode (Success (infoOn "testnet" [] 2)) (Success twoChannels)
            (Success (balanceOf 750000)).

(** The node reports five active channels and lists two. *)
Definition disagreeingNode : lnrpc.LightningClient :=
  fixedNode (Success (infoOn "testnet" [uri] 5)) (Success twoChannels)
            (Success (balanceOf 750000)).

Definition hugeNode : lnrpc.LightningClient :=
  fixedNode (Success (infoOn "testnet" [uri] 2)) (Success hugeChannels)
            (Success (balanceOf 750000)).

Definition noChainNode : lnrpc.LightningClient :=
  fixedNode (Success noChainInfo) (Success twoChannels)
            (Success (balanceOf 750000)).

Definition unnamedNetNode : lnrpc.LightningClient :=
  fixedNode (Success (infoOn "" [uri] 2)) (Success twoChannels)
            (Success (balanceOf 750000)).

Definition lockedWalletNode : lnrpc.LightningClient :=
  fixedNode (Success (infoOn "testnet" [uri] 2)) (Success twoChannels)
            (Failure "wallet locked").

Definition cfgOn (network : string) : config.t := {|
  config.ConfigFile := "";
  config.BindAddr := ":80";
  config.RPCHost := "127.0.0.1:10009";
  config.TLSCertPath := "/home/hub/.dcrlnd/tls.cert";
  config.MacaroonPath :=
    "/home/hub/.dcrlnd/data/chain/decred/" ++ network ++ "/admin.macaroon";
  config.UseLeHTTPS := false;
  config.Domain := "";
  config.Network := network;
  config.MainNet := false;
  config.TestNet := String.eqb network "testnet";
  config.SimNet := false
|}.

Definition testnetCfg : config.t := cfgOn "testnet".

(** A machine on which every file is in place and the dial reaches
    [node]. *)
Definition machine (node : lnrpc.LightningClient) : system := {|
  cleanAndExpandPath := fun p => p;
  NewClientTLSFromFile := fun _ => Success (certPool "-----BEGIN CERTIFICATE-----");
  ReadFile := fun _ => Success [Byte.x02];
  UnmarshalBinary := fun raw => Success (macaroonOf raw);
  Dial := fun _ _ _ => Success node
|}.

(** A start-up with an empty command line and no configuration file. *)
Definition bareStartup : startup := {|
  defaultDataDir := "/home/hub/.dcrlnhub";
  defaultDcrlndDir := "/home/hub/.dcrlnd";
  Join := String.concat "/";
  preParse := (None, []);
  ParseFile := fun p => flags.IniPathError ("open " ++ p ++ ": no such file");
  Parse := ([], Success []);
  MkdirAll := fun _ => None;
  initLogRotator := fun _ => ret tt;
  setLogLevels := fun _ => ret tt
|}.

Definition hubOf (node : lnrpc.LightningClient) (ctx : templateContext.t)
  : lightningHub.t := {|
  lightningHub.lnd := node;
  lightningHub.template := ["index.html"];
  lightningHub.cfg := testnetCfg;
  lightningHub.context := ctx
|}.

Definition emptyContext : templateContext.t := {|
  templateContext.NodeAddr := "";
  templateContext.Network := "";
  templateContext.ChannelsCount := 0;
  templateContext.Capacity := 0;
  templateContext.Balance := 0;
  templateContext.ActiveChannels := [];
  templateContext.DonationAddr := "";
  templateContext.DonationInvoice := ""
|}.

Definition post : http.Request := {| http.Method := "POST"; http.Path := "/" |}.
Definition put : http.Request := {| http.Method := "PUT"; http.Path := "/" |}.

End Examples.

(** ** Further notions: queries, responses, flags *)

(** The queries among the events of a run, each with whether it failed. *)
Definition queries (evs : list event) : list (lnrpc.method * bool) :=
  flat_map (fun e => match e with
                     | EvRPC m failed => [(m, failed)]
                     | _ => []
                     end) evs.

(** What a run writes to the HTTP response, or hands to the file server. *)
Definition is_response (e : event) : bool :=
  match e with
  | EvHTTPError _ _ | EvExecute _ _ | EvServeFile _ | EvRedirect _ _ => true
  | _ => false
  end.

Definition responses (evs : list event) : list event :=
  filter is_response evs.

(** The hub [h] holding the snapshot [c]. *)
Definition withContext (h : lightningHub.t) (c : templateContext.t)
  : lightningHub.t := {|
  lightningHub.lnd := lightningHub.lnd h;
  lightningHub.template := lightningHub.template h;
  lightningHub.cfg := lightningHub.cfg h;
  lightningHub.context := c
|}.

(** The number of network flags a configuration has set, and the network
    the last of them names. *)
Definition flagCount (c : config.t) : nat :=
  (Nat.b2n (config.MainNet c) + Nat.b2n (config.TestNet c)
   + Nat.b2n (config.SimNet c))%nat.

Definition flaggedNetwork (c : config.t) : string :=
  if config.SimNet c then "simnet"
  else if config.TestNet c then "testnet"
  else if config.MainNet c then "mainnet"
  else config.Network c.

(** The last value an option list gives to the RPC host, if any. *)
Definition lastRPCHost (os : list flags.setting) : option string :=
  fold_left (fun acc o => match o with
                          | flags.RPCHost v => Some v
                          | _ => acc
                          end) os None.

(** The character [c] occurs in [s]. *)
Fixpoint mentions (c : ascii) (s : string) : bool :=
  match s with
  | EmptyString => false
  | String x s' => Ascii.eqb x c || mentions c s'
  end.

(** The tails that follow the dcrlnd directory in the default macaroon
    path and the hub's data directory in the default log path, on a
    system whose path separator is the slash. *)
Definition macaroonTail : string := "/data/chain/decred/testnet/admin.macaroon".
Definition logTail : string := "/logs/decred/testnet/dcrlnhub.log".

(** ** Start-ups used as examples *)

Module Startups.

(** A start-up whose command line is parsed into the options [os]. *)
Definition withOptions (os : list flags.setting) : startup := {|
  defaultDataDir := "/home/hub/.dcrlnhub";
  defaultDcrlndDir := "/home/hub/.dcrlnd";
  Join := String.concat "/";
  preParse := (None, os);
  ParseFile := fun p => flags.IniPathError ("open " ++ p ++ ": no such file");
  Parse := (os, Success []);
  MkdirAll := fun _ => None;
  initLogRotator := fun _ => ret tt;
  setLogLevels := fun _ => ret tt
|}.

(** The same, in the home directory of a user called testnet. *)
Definition ofUserTestnet (os : list flags.setting) : startup := {|
  defaultDataDir := "/home/testnet/.dcrlnhub";
  defaultDcrlndDir := "/home/testnet/.dcrlnd";
  Join := String.concat "/";
  preParse := (None, os);
  ParseFile := fun p => flags.IniPathError ("open " ++ p ++ ": no such file");
  Parse := (os, Success []);
  MkdirAll := fun _ => None;
  initLogRotator := fun _ => ret tt;
  setLogLevels := fun _ => ret tt
|}.

(** A start-up with a configuration file holding [fileOs] and a command
    line holding [os]. *)
Definition withFile (fileOs os : list flags.setting) : startup := {|
  defaultDataDir := "/home/hub/.dcrlnhub";
  defaultDcrlndDir := "/home/hub/.dcrlnd";
  Join := String.concat "/";
  preParse := (None, os);
  ParseFile := fun _ => flags.IniOptions fileOs;
  Parse := (os, Success []);
  MkdirAll := fun _ => None;
  initLogRotator := fun _ => ret tt;
  setLogLevels := fun _ => ret tt
|}.

(** A machine whose certificate file is missing. *)
Definition noCertificate : system := {|
  cleanAndExpandPath := fun p => p;
  NewClientTLSFromFile := fun p => Failure ("open " ++ p ++ ": no such file");
  ReadFile := fun _ => Success [Byte.x02];
  UnmarshalBinary := fun raw => Success (macaroonOf raw);
  Dial := fun _ _ _ => Success Examples.testnetNode
|}.

End Startups.

(** * Properties *)

Local Open Scope list_scope.

(** ** The trace *)

Lemma served_app (a b : trace) :
  served (a ++ b) = (served a + served b)%nat.
Proof.
  unfold served. now rewrite filter_app, length_app.
Qed.

Lemma served_rpc (tr : trace) m b :
  served (tr ++ [EvRPC m b]) = S (served tr).
Proof.
  rewrite served_app. cbn. lia.
Qed.

Lemma served_log (tr : trace) l msg :
  served (tr ++ [EvLog l msg]) = served tr.
Proof.
  rewrite served_app. cbn. lia.
Qed.

Lemma rpcs_since_app (tr evs : trace) :
  rpcs_since tr (tr ++ evs) = filter is_rpc evs.
Proof.
  unfold rpcs_since. f_equal.
  induction tr as [|e tr IH]; [reflexivity | exact IH].
Qed.

(** ** [fetchHomePage], run by run *)

Lemma bind_ret A B (a : A) (k : A -> M B) tr :
  bind (ret a) k tr = k a tr.
Proof. reflexivity. Qed.

Lemma bind_emit B e (k : unit -> M B) tr :
  bind (emit e) k tr = k tt (tr ++ [e]).
Proof. reflexivity. Qed.

Lemma bind_call A B m (answer : nat -> result A) (k : result A -> M B) tr :
  bind (call m answer) k tr
  = k (answer (served tr))
      (tr ++ [EvRPC m (negb (is_success (answer (served tr))))]).
Proof. reflexivity. Qed.

Lemma bind_bind A B C (m : M A) (f : A -> M B) (k : B -> M C) tr :
  bind (bind m f) k tr = bind m (fun a => bind (f a) k) tr.
Proof.
  unfold bind. destruct (m tr) as [[a|msg] tr']; reflexivity.
Qed.

(** The part of [fetchHomePage] after the URI step. *)
Ltac fetch_tail info Hinfo Hnet Huris :=
  let chans := fresh "chans" in
  let bal := fresh "bal" in
  let err := fresh "err" in
  let Hch := fresh "Hch" in
  let Hb := fresh "Hb" in
  let R := fresh "R" in
  rewrite bind_call, ?served_log, served_rpc;
  match goal with
  | |- context [lnrpc.ListChannels ?lnd ?t] =>
      destruct (lnrpc.ListChannels lnd t) as [chans|err] eqn:Hch
  end;
  [ rewrite bind_call, served_rpc, ?served_log, served_rpc;
    match goal with
    | |- context [lnrpc.WalletBalance ?lnd ?t] =>
        destruct (lnrpc.WalletBalance lnd t) as [bal|err] eqn:Hb
    end;
    [ unfold log.Warn; rewrite bind_emit; unfold ret;
      do 2 eexists; split; [rewrite <- !app_assoc; reflexivity|];
      pose proof (@run_snapshot _ _ _ _ _ _ Hinfo Hnet Hch Hb) as R
    | unfold ret; do 2 eexists; split; [rewrite <- !app_assoc; reflexivity|];
      pose proof (@run_balance_failed _ _ _ _ _ _ Hinfo Hnet Hch Hb) as R ]
  | unfold ret; do 2 eexists; split; [rewrite <- !app_assoc; reflexivity|];
    pose proof (@run_channels_failed _ _ _ _ _ Hinfo Hnet Hch) as R ];
  unfold uriEvents, firstUri in R; rewrite Huris in R; exact R.

(** Every run of [fetchHomePage] is one of the six runs of [fetch_run]. *)
Lemma fetchHomePage_run lnd cfg tr :
  exists out evs,
    fetchHomePage lnd cfg tr = (out, tr ++ evs)
    /\ fetch_run lnd cfg tr out evs.
Proof.
  unfold fetchHomePage. rewrite bind_call.
  destruct (lnrpc.GetInfo lnd (served tr)) as [info|err] eqn:Hinfo.
  2:{ do 2 eexists; split; [reflexivity|]. now constructor. }
  destruct (lnrpc.Chains info) as [|chain0 chains] eqn:Hchains.
  { do 2 eexists; split; [reflexivity|].
    apply run_no_chain with info; [assumption|].
    unfold reportedNetwork. now rewrite Hchains. }
  assert (Hnet : reportedNetwork info = Some (lnrpc.Network chain0))
    by (unfold reportedNetwork; now rewrite Hchains).
  cbv zeta.
  destruct (String.eqb_spec (lnrpc.Network chain0) (config.Network cfg))
    as [Heq|Hne]; cbn [negb].
  2:{ do 2 eexists; split; [reflexivity|].
      now apply run_mismatch with info. }
  rewrite Heq in *. clear Heq.
  destruct (lnrpc.Uris info) as [|uri0 uris] eqn:Huris; cbv iota.
  - unfold log.Warn at 1. rewrite bind_bind, bind_emit, bind_ret.
    fetch_tail info Hinfo Hnet Huris.
  - rewrite bind_ret.
    fetch_tail info Hinfo Hnet Huris.
Qed.

Lemma fetchHomePage_inv lnd cfg tr out tr' :
  fetchHomePage lnd cfg tr = (out, tr') ->
  exists evs, tr' = tr ++ evs /\ fetch_run lnd cfg tr out evs.
Proof.
  intros H. destruct (fetchHomePage_run lnd cfg tr) as (o & evs & E & R).
  rewrite E in H. inversion H; subst. eauto.
Qed.

(** The calls a run of [fetchHomePage] issues do not depend on the URI
    step's log line. *)
Lemma filter_rpc_uriEvents info (rest : list event) :
  filter is_rpc (uriEvents info ++ rest) = filter is_rpc rest.
Proof.
  unfold uriEvents. destruct (lnrpc.Uris info); reflexivity.
Qed.

(** ** Failure is whole *)

(** C1. In every run of [fetchHomePage], if one of the queries the run
    issues (GetInfo, ListChannels, WalletBalance) is answered with an error,
    the call returns an error and no snapshot; and whenever one of the three
    answers the node would give is an error, no snapshot is returned. *)
Theorem fetchHomePage_fails_whole lnd cfg tr out tr' :
  fetchHomePage lnd cfg tr = (out, tr') ->
  ((exists m, In (EvRPC m true) (rpcs_since tr tr')) ->
   exists err, out = Done (Failure err))
  /\ (is_success (lnrpc.GetInfo lnd (served tr))
      && is_success (lnrpc.ListChannels lnd (S (served tr)))
      && is_success (lnrpc.WalletBalance lnd (S (S (served tr)))) = false ->
      forall ctx, out <> Done (Success ctx)).
Proof.
  intros H. apply fetchHomePage_inv in H. destruct H as (evs & -> & R).
  rewrite rpcs_since_app. split.
  - intros [m Hm].
    destruct R; try (eexists; reflexivity); exfalso; cbn in Hm;
      try rewrite filter_rpc_uriEvents in Hm; cbn in Hm;
      intuition discriminate.
  - intros Hf ctx Hout.
    destruct R; try discriminate.
    repeat match goal with
           | E : _ = Success _ |- _ => rewrite E in Hf; clear E
           end.
    discriminate.
Qed.

Lemma fetchHomePage_fails_whole_witness :
  exists err,
    fst (fetchHomePage Examples.lockedWalletNode Examples.testnetCfg [])
    = Done (Failure err).
Proof.
  destruct (@fetchHomePage_fails_whole Examples.lockedWalletNode
              Examples.testnetCfg [] _ _ eq_refl) as [H _].
  apply H. exists lnrpc.MWalletBalance. vm_compute. right. right. now left.
Defined.

(** ** The network check *)









(** C3. A [GetInfo] answer with no chain entry: [fetchHomePage] indexes
    the empty list and the run ends in a panic, right after the [GetInfo]
    call; no error is returned. *)
Theorem fetchHomePage_no_chain_panics lnd cfg tr info :
  lnrpc.GetInfo lnd (served tr) = Success info ->
  lnrpc.Chains info = [] ->
  fetchHomePage lnd cfg tr
  = (Panic indexPanic, tr ++ [EvRPC lnrpc.MGetInfo false]).
Proof.
  intros Hinfo Hchains. unfold fetchHomePage.
  rewrite bind_call, Hinfo, Hchains. reflexivity.
Qed.

Lemma fetchHomePage_no_chain_panics_witness :
  fetchHomePage Examples.noChainNode Examples.testnetCfg []
  = (Panic indexPanic, [EvRPC lnrpc.MGetInfo false]).
Proof.
  exact (@fetchHomePage_no_chain_panics Examples.noChainNode
           Examples.testnetCfg [] Examples.noChainInfo eq_refl eq_refl).
Defined.

(** ** The aggregate capacity *)

Lemma wrap_small z : Int64.in_range z -> Int64.wrap z = z.
Proof.
  unfold Int64.in_range, Int64.wrap, Int64.min_signed, Int64.max_signed,
    Int64.modulus.
  intros H. rewrite Z.mod_small; lia.
Qed.

Lemma wrap_add_l a b : Int64.wrap (Int64.wrap a + b) = Int64.wrap (a + b).
Proof.
  unfold Int64.wrap.
  replace ((a - Int64.min_signed) mod Int64.modulus + Int64.min_signed + b
           - Int64.min_signed)
    with ((a - Int64.min_signed) mod Int64.modulus + b) by ring.
  rewrite Z.add_mod_idemp_l by (unfold Int64.modulus; lia).
  do 2 f_equal. ring.
Qed.

Lemma sumCapacity_from_wrapped a chans :
  sumCapacity (Int64.wrap a) chans = Int64.wrap (a + capacitySum chans).
Proof.
  revert a. induction chans as [|c chans IH]; intros a.
  - cbn. now rewrite Z.add_0_r.
  - change (capacitySum (c :: chans))
      with (lnrpc.Capacity c + capacitySum chans).
    cbn [sumCapacity]. unfold Int64.add. rewrite wrap_add_l, IH.
    f_equal. ring.
Qed.

Lemma sumCapacity_wraps chans :
  sumCapacity 0 chans = Int64.wrap (capacitySum chans).
Proof.
  change 0 with (Int64.wrap 0) at 1. now rewrite sumCapacity_from_wrapped.
Qed.

Lemma capacitySum_nonneg chans :
  (forall c, In c chans -> 0 <= lnrpc.Capacity c) -> 0 <= capacitySum chans.
Proof.
  induction chans as [|c chans IH]; intros H; [cbn; lia|].
  change (capacitySum (c :: chans))
    with (lnrpc.Capacity c + capacitySum chans).
  assert (0 <= lnrpc.Capacity c) by (apply H; now left).
  assert (0 <= capacitySum chans) by (apply IH; intros; apply H; now right).
  lia.
Qed.

(** C4, as the code has it. In every snapshot the capacity field is the
    sum of the capacities of the listed channels reduced to an [int64]:
    the exact sum whenever that sum fits an [int64], and 0 for the empty
    list; and [ActiveChannels] is the list as the node returned it, in its
    order. *)
Theorem snapshot_capacity_and_channels lnd cfg tr ctx chans :
  fst (fetchHomePage lnd cfg tr) = Done (Success ctx) ->
  lnrpc.ListChannels lnd (S (served tr)) = Success chans ->
  templateContext.Capacity ctx
  = Int64.wrap (capacitySum (lnrpc.Channels chans))
  /\ (Int64.in_range (capacitySum (lnrpc.Channels chans)) ->
      templateContext.Capacity ctx = capacitySum (lnrpc.Channels chans))
  /\ (lnrpc.Channels chans = [] -> templateContext.Capacity ctx = 0)
  /\ templateContext.ActiveChannels ctx = lnrpc.Channels chans.
Proof.
  intros Hout Hch.
  destruct (fetchHomePage_run lnd cfg tr) as (o & evs & E & R).
  rewrite E in Hout. cbn [fst] in Hout. subst o.
  inversion R as [| | | | |info c bal Hi Hn Hc Hb Hctx Hevs]; subst.
  rewrite Hch in Hc. inversion Hc; subst c. cbn.
  rewrite sumCapacity_wraps. repeat split.
  - intros Hr. now apply wrap_small.
  - intros ->. reflexivity.
Qed.

Lemma snapshot_capacity_and_channels_witness :
  exists ctx,
    fst (fetchHomePage Examples.testnetNode Examples.testnetCfg [])
    = Done (Success ctx)
    /\ templateContext.Capacity ctx = 2000000
    /\ templateContext.Balance ctx = 750000
    /\ List.length (templateContext.ActiveChannels ctx) = 2%nat.
Proof.
  eexists. split; [reflexivity|].
  destruct (@snapshot_capacity_and_channels Examples.testnetNode
              Examples.testnetCfg [] _ Examples.twoChannels
              eq_refl eq_refl) as (_ & Hsum & _ & Hchans).
  split; [|split].
  - rewrite Hsum; [reflexivity|].
    unfold Int64.in_range. cbn. lia.
  - reflexivity.
  - rewrite Hchans. reflexivity.
Defined.

(** C4 as stated fails where the exact sum leaves the [int64] range: the
    node lists channels of 2^63 - 1 and 1 atoms, the exact sum is 2^63 and
    the snapshot's capacity is -2^63. *)
Lemma snapshot_capacity_not_the_sum :
  exists ctx,
    fst (fetchHomePage Examples.hugeNode Examples.testnetCfg [])
    = Done (Success ctx)
    /\ templateContext.ActiveChannels ctx
       = lnrpc.Channels Examples.hugeChannels
    /\ capacitySum (templateContext.ActiveChannels ctx) = 9223372036854775808
    /\ templateContext.Capacity ctx = -9223372036854775808
    /\ templateContext.Capacity ctx
       <> capacitySum (templateContext.ActiveChannels ctx).
Proof.
  eexists. split; [reflexivity|]. repeat split. discriminate.
Qed.

(** C6, as the code has it. The accumulator is an [int64], wide enough
    for the maximum supply: the aggregate is the exact sum reduced to an
    [int64], and it is the exact sum whenever that sum fits an [int64], in
    particular for capacities that are not negative and add up to at most
    the maximum supply. *)
Theorem sumCapacity_exact_within_int64 chans :
  sumCapacity 0 chans = Int64.wrap (capacitySum chans)
  /\ (Int64.in_range (capacitySum chans) ->
      sumCapacity 0 chans = capacitySum chans)
  /\ ((forall c, In c chans -> 0 <= lnrpc.Capacity c) ->
      capacitySum chans <= MaxAmount ->
      sumCapacity 0 chans = capacitySum chans)
  /\ MaxAmount <= Int64.max_signed.
Proof.
  repeat split.
  - apply sumCapacity_wraps.
  - intros H. rewrite sumCapacity_wraps. now apply wrap_small.
  - intros Hpos Hmax. rewrite sumCapacity_wraps. apply wrap_small.
    pose proof (capacitySum_nonneg _ Hpos).
    unfold Int64.in_range, Int64.min_signed, Int64.max_signed, MaxAmount in *.
    lia.
  - unfold MaxAmount, Int64.max_signed. lia.
Qed.

Lemma sumCapacity_exact_within_int64_witness :
  sumCapacity 0 (lnrpc.Channels Examples.twoChannels) = 2000000.
Proof.
  destruct (sumCapacity_exact_within_int64
              (lnrpc.Channels Examples.twoChannels)) as (_ & _ & H & _).
  rewrite H; [reflexivity| |].
  - cbn. intros c [<-|[<-|[]]]; cbn; lia.
  - unfold MaxAmount. cbn. lia.
Defined.

(** C6 as stated fails for capacities whose exact sum leaves the [int64]
    range: the accumulator wraps around. *)
Lemma sumCapacity_wraps_around :
  let chans := [Examples.channelOf "03aa" 9223372036854775807;
                Examples.channelOf "03bb" 1] in
  capacitySum chans = 9223372036854775808
  /\ sumCapacity 0 chans = -9223372036854775808
  /\ sumCapacity 0 chans <> capacitySum chans.
Proof.
  cbv zeta. repeat split. discriminate.
Qed.

(** ** The node address *)

Lemma added_app (tr evs : trace) : added tr (tr ++ evs) = evs.
Proof.
  unfold added. induction tr as [|e tr IH]; [reflexivity | exact IH].
Qed.

Lemma fetchHomePage_verdict lnd cfg tr :
  verdictOf (fst (fetchHomePage lnd cfg tr))
  = expectedVerdict lnd cfg (served tr).
Proof.
  destruct (fetchHomePage_run lnd cfg tr) as (o & evs & E & R).
  rewrite E. cbn [fst]. unfold expectedVerdict.
  destruct R;
    repeat match goal with
           | H : _ = Success _ |- _ => rewrite H; clear H
           | H : _ = Failure _ |- _ => rewrite H; clear H
           | H : reportedNetwork _ = _ |- _ => rewrite H; clear H
           end;
    try reflexivity.
  - destruct (String.eqb_spec net (config.Network cfg)); [contradiction|].
    reflexivity.
  - now rewrite String.eqb_refl.
  - now rewrite String.eqb_refl.
  - now rewrite String.eqb_refl.
Qed.

Lemma expectedVerdict_withUris uris lnd cfg t :
  expectedVerdict (withUris uris lnd) cfg t = expectedVerdict lnd cfg t.
Proof.
  unfold expectedVerdict, withUris. cbn.
  destruct (lnrpc.GetInfo lnd t); reflexivity.
Qed.

(** C7. A [GetInfo] answer without URIs is no failure: whatever the URI
    list is, [fetchHomePage] fails, panics or succeeds alike; and in a
    snapshot the node address is the empty string when the list is empty,
    the run then logging the warning about it and nothing above the
    warning level, and the first URI otherwise. *)
Theorem fetchHomePage_node_address lnd cfg tr :
  (forall uris,
      verdictOf (fst (fetchHomePage (withUris uris lnd) cfg tr))
      = verdictOf (fst (fetchHomePage lnd cfg tr)))
  /\ (forall info ctx tr',
         lnrpc.GetInfo lnd (served tr) = Success info ->
         fetchHomePage lnd cfg tr = (Done (Success ctx), tr') ->
         match lnrpc.Uris info with
         | [] =>
             templateContext.NodeAddr ctx = ""%string
             /\ In uriWarning (added tr tr')
             /\ (forall l msg, In (EvLog l msg) (added tr tr') -> l = LvlWarn)
         | uri0 :: _ => templateContext.NodeAddr ctx = uri0
         end).
Proof.
  split.
  - intros uris. now rewrite !fetchHomePage_verdict, expectedVerdict_withUris.
  - intros info ctx tr' Hinfo Hrun.
    apply fetchHomePage_inv in Hrun. destruct Hrun as (evs & -> & R).
    rewrite added_app.
    inversion R as [| | | | |i c bal Hi Hn Hc Hb Hctx Hevs]; subst.
    rewrite Hinfo in Hi. inversion Hi; subst i.
    unfold firstUri, uriEvents.
    destruct (lnrpc.Uris info) as [|uri0 uris]; cbn; [|reflexivity].
    repeat split.
    + right. now left.
    + intros l msg [H|[H|[H|[H|[H|[]]]]]]; inversion H; reflexivity.
Qed.

Lemma fetchHomePage_node_address_witness :
  exists ctx tr',
    fetchHomePage Examples.privateNode Examples.testnetCfg []
    = (Done (Success ctx), tr')
    /\ templateContext.NodeAddr ctx = ""%string
    /\ In uriWarning tr'.
Proof.
  do 2 eexists. split; [vm_compute; reflexivity|].
  destruct (fetchHomePage_node_address Examples.privateNode
              Examples.testnetCfg []) as [_ H].
  specialize (H (Examples.infoOn "testnet" [] 2) _ _ eq_refl eq_refl).
  cbn [lnrpc.Uris Examples.infoOn] in H.
  destruct H as (Haddr & Hwarn & _). split; [exact Haddr | exact Hwarn].
Defined.

(** ** The channel count *)

(** C8. The channel count of a snapshot is the [NumActiveChannels] of
    the [GetInfo] answer: two nodes that answer [GetInfo] alike give the
    same count whatever their channel lists are, and the count can differ
    from the number of channels in the snapshot. *)
Theorem channels_count_is_reported :
  (forall lnd cfg tr ctx,
      fst (fetchHomePage lnd cfg tr) = Done (Success ctx) ->
      exists info,
        lnrpc.GetInfo lnd (served tr) = Success info
        /\ templateContext.ChannelsCount ctx = lnrpc.NumActiveChannels info)
  /\ (forall lnd lnd' cfg tr ctx ctx',
         lnrpc.GetInfo lnd (served tr) = lnrpc.GetInfo lnd' (served tr) ->
         fst (fetchHomePage lnd cfg tr) = Done (Success ctx) ->
         fst (fetchHomePage lnd' cfg tr) = Done (Success ctx') ->
         templateContext.ChannelsCount ctx
         = templateContext.ChannelsCount ctx')
  /\ (exists lnd cfg ctx,
         fst (fetchHomePage lnd cfg []) = Done (Success ctx)
         /\ N.to_nat (templateContext.ChannelsCount ctx)
            <> List.length (templateContext.ActiveChannels ctx)).
Proof.
  assert (Hcount : forall lnd cfg tr ctx,
             fst (fetchHomePage lnd cfg tr) = Done (Success ctx) ->
             exists info,
               lnrpc.GetInfo lnd (served tr) = Success info
               /\ templateContext.ChannelsCount ctx
                  = lnrpc.NumActiveChannels info).
  { intros lnd cfg tr ctx Hout.
    destruct (fetchHomePage_run lnd cfg tr) as (o & evs & E & R).
    rewrite E in Hout. cbn [fst] in Hout. subst o.
    inversion R; subst. eexists; split; [eassumption|reflexivity]. }
  split; [exact Hcount|split].
  - intros lnd lnd' cfg tr ctx ctx' Hsame H H'.
    apply Hcount in H. apply Hcount in H'.
    destruct H as (i & Hi & ->), H' as (i' & Hi' & ->).
    rewrite Hsame, Hi' in Hi. now inversion Hi.
  - exists Examples.disagreeingNode, Examples.testnetCfg.
    eexists. split; [reflexivity|]. cbn. discriminate.
Qed.

Lemma channels_count_is_reported_witness :
  exists ctx,
    fst (fetchHomePage Examples.disagreeingNode Examples.testnetCfg [])
    = Done (Success ctx)
    /\ templateContext.ChannelsCount ctx = 5%N
    /\ List.length (templateContext.ActiveChannels ctx) = 2%nat.
Proof.
  destruct channels_count_is_reported as (H & _ & _).
  eexists. split; [reflexivity|]. split; [|reflexivity].
  destruct (H Examples.disagreeingNode Examples.testnetCfg [] _ eq_refl)
    as (info & Hinfo & ->).
  cbn in Hinfo. now inversion Hinfo.
Defined.

(** ** The page handler *)

(** A run of [fetchHomePage] adds the [GetInfo] call first, and then only
    calls and warnings. *)
Lemma fetch_run_events lnd cfg tr out evs :
  fetch_run lnd cfg tr out evs ->
  (exists b rest, evs = EvRPC lnrpc.MGetInfo b :: rest)
  /\ forall e, In e evs ->
       match e with
       | EvRPC _ _ | EvLog LvlWarn _ => True
       | _ => False
       end.
Proof.
  intros R. split.
  - destruct R; eauto.
  - intros e He.
    destruct R; cbn in He;
      repeat first
        [ destruct He as [<-|He]; [exact I|]
        | destruct He as []
        | apply in_app_or in He; destruct He as [He|He]
        | progress (unfold uriEvents, uriWarning in He)
        | match type of He with
          | context [lnrpc.Uris ?i] => destruct (lnrpc.Uris i)
          end
        | progress cbn in He ].
Qed.

(** [HomePage] on a hub whose template set has the index page: the fetch
    runs first, whatever the method is, and the answer follows. *)
Lemma HomePage_run h r tr :
  Lookup (lightningHub.template h) "index.html" <> None ->
  exists out evs resp,
    fetchHomePage (lightningHub.lnd h) (lightningHub.cfg h) tr
    = (out, tr ++ evs)
    /\ fetch_run (lightningHub.lnd h) (lightningHub.cfg h) tr out evs
    /\ snd (HomePage h r tr) = tr ++ evs ++ resp
    /\ match out with
       | Panic _ => resp = []
       | Done (Failure _) =>
           resp = [EvLog LvlError "unable to fetch home state";
                   EvHTTPError "unable to render home page" 500]
       | Done (Success homeInfo) =>
           if String.eqb (http.Method r) "GET"
           then resp = [EvExecute "index.html" homeInfo]
           else resp = [EvHTTPError "Method not allowed!" 405]
       end.
Proof.
  intros Hidx. unfold HomePage.
  destruct (Lookup (lightningHub.template h) "index.html") as [name|] eqn:Hl;
    [|contradiction].
  assert (name = "index.html"%string) as ->.
  { unfold Lookup in Hl.
    destruct (existsb _ _); now inversion Hl. }
  destruct (fetchHomePage_run (lightningHub.lnd h) (lightningHub.cfg h) tr)
    as (out & evs & E & R).
  exists out, evs. unfold bind at 1. rewrite E.
  destruct out as [[homeInfo|err]|msg].
  - unfold http.MethodGet.
    destruct (String.eqb (http.Method r) "GET"); eexists;
      (split; [reflexivity|split; [exact R|split; [|reflexivity]]]);
      cbn; now rewrite <- app_assoc.
  - eexists. split; [reflexivity|split; [exact R|split; [|reflexivity]]].
    cbn. now rewrite <- !app_assoc.
  - exists []. split; [reflexivity|split; [exact R|split; [|reflexivity]]].
    cbn. now rewrite app_nil_r.
Qed.

(** [HomePage] in full, with and without the index page. *)
Lemma HomePage_no_template h r tr :
  Lookup (lightningHub.template h) "index.html" = None ->
  HomePage h r tr
  = (Done tt,
     tr ++ [EvLog LvlError "unable to lookup index";
            EvHTTPError "500 Internal Server Error." 500]).
Proof.
  intros Hl. unfold HomePage. rewrite Hl.
  unfold log.Error, http.Error. rewrite bind_emit. unfold emit.
  now rewrite <- app_assoc.
Qed.

Lemma HomePage_with_template h r tr :
  Lookup (lightningHub.template h) "index.html" <> None ->
  exists out evs,
    fetchHomePage (lightningHub.lnd h) (lightningHub.cfg h) tr
    = (out, tr ++ evs)
    /\ fetch_run (lightningHub.lnd h) (lightningHub.cfg h) tr out evs
    /\ HomePage h r tr
       = match out with
         | Done (Success homeInfo) =>
             (Done tt,
              tr ++ evs
                ++ [if String.eqb (http.Method r) "GET"
                    then EvExecute "index.html" homeInfo
                    else EvHTTPError "Method not allowed!" 405])
         | Done (Failure _) =>
             (Done tt,
              tr ++ evs
                ++ [EvLog LvlError "unable to fetch home state";
                    EvHTTPError "unable to render home page" 500])
         | Panic msg => (Panic msg, tr ++ evs)
         end.
Proof.
  intros Hidx. unfold HomePage.
  destruct (Lookup (lightningHub.template h) "index.html") as [name|] eqn:Hl;
    [|contradiction].
  assert (name = "index.html"%string) as ->.
  { unfold Lookup in Hl.
    destruct (existsb _ _); now inversion Hl. }
  destruct (fetchHomePage_run (lightningHub.lnd h) (lightningHub.cfg h) tr)
    as (out & evs & E & R).
  exists out, evs. split; [exact E|]. split; [exact R|].
  unfold bind at 1. rewrite E.
  destruct out as [[homeInfo|err]|msg].
  - unfold http.MethodGet.
    destruct (String.eqb (http.Method r) "GET");
      unfold Execute, http.Error, emit; now rewrite <- app_assoc.
  - unfold log.Error, http.Error. rewrite bind_emit. unfold emit.
    now rewrite <- !app_assoc.
  - reflexivity.
Qed.

(** What the router does with a request whose method the home route does
    not list. *)
Lemma ServeHTTP_unlisted_method clean hub r tr :
  http.Method r <> "GET"%string -> http.Method r <> "POST"%string ->
  exists e,
    ServeHTTP clean hub r tr = (Done tt, tr ++ [e])
    /\ (clean (http.Path r) <> http.Path r ->
        e = EvRedirect (clean (http.Path r)) 301)
    /\ (clean (http.Path r) = http.Path r -> http.Path r = "/"%string ->
        e = EvHTTPError "" 405)
    /\ (clean (http.Path r) = http.Path r -> http.Path r <> "/"%string ->
        e = if strings.HasPrefix (http.Path r) "/static/"
            then EvServeFile (http.Path r)
            else EvHTTPError "404 page not found" 404).
Proof.
  intros Hget Hpost. unfold ServeHTTP, homeMethods. cbv zeta.
  cbn [existsb].
  destruct (String.eqb_spec (http.Method r) "POST"); [contradiction|].
  destruct (String.eqb_spec (http.Method r) "GET"); [contradiction|].
  cbn [orb].
  destruct (String.eqb_spec (clean (http.Path r)) (http.Path r)) as [Hc|Hc];
    cbn [negb].
  2:{ eexists. split; [reflexivity|]. repeat split; intros; tauto. }
  destruct (String.eqb_spec (http.Path r) "/") as [Hp|Hp].
  { eexists. split; [reflexivity|]. repeat split; intros; tauto. }
  destruct (strings.HasPrefix (http.Path r) "/static/");
    eexists; (split; [reflexivity|]); repeat split; intros; tauto.
Qed.

(** Off the home page no request reaches the node. *)
Lemma ServeHTTP_other_path clean hub r tr :
  http.Path r <> "/"%string ->
  rpcs_since tr (snd (ServeHTTP clean hub r tr)) = [].
Proof.
  intros Hp. unfold ServeHTTP. cbv zeta.
  destruct (negb (String.eqb (clean (http.Path r)) (http.Path r))).
  { cbn [emit snd]. now rewrite rpcs_since_app. }
  destruct (String.eqb_spec (http.Path r) "/"); [contradiction|].
  destruct (strings.HasPrefix (http.Path r) "/static/");
    cbn [http.Error emit snd]; now rewrite rpcs_since_app.
Qed.

(** C5, as the code has it. A request whose method is neither GET nor
    POST never reaches the handler or the node: the router answers it
    itself, with 405 on the home page (with 301 when the path is not
    canonical, through the file server under ["/static/"], with 404
    elsewhere).  Off the home page no request reaches the node.  Only a
    GET renders the page.  A POST to the home page does
    reach the handler: with the index page present the whole fetch runs
    first, and the answer follows it: 405 after a snapshot, 500 after a
    failure, and a panic of the fetch goes through; without the index
    page the answer is 500 and the node is not asked. *)
Theorem only_get_renders clean hub r tr :
  let tr' := snd (ServeHTTP clean hub r tr) in
  (http.Method r <> "GET"%string -> http.Method r <> "POST"%string ->
   rpcs_since tr tr' = []
   /\ exists e,
       ServeHTTP clean hub r tr = (Done tt, tr ++ [e])
       /\ (clean (http.Path r) <> http.Path r ->
           e = EvRedirect (clean (http.Path r)) 301)
       /\ (clean (http.Path r) = http.Path r -> http.Path r = "/"%string ->
           e = EvHTTPError "" 405)
       /\ (clean (http.Path r) = http.Path r -> http.Path r <> "/"%string ->
           e = if strings.HasPrefix (http.Path r) "/static/"
               then EvServeFile (http.Path r)
               else EvHTTPError "404 page not found" 404))
  /\ (http.Path r <> "/"%string -> rpcs_since tr tr' = [])
  /\ (http.Method r <> "GET"%string ->
      forall name data, ~ In (EvExecute name data) (added tr tr'))
  /\ (http.Method r = "POST"%string -> http.Path r = "/"%string ->
      clean "/" = "/"%string ->
      ServeHTTP clean hub r tr = HomePage hub r tr
      /\ (Lookup (lightningHub.template hub) "index.html" = None ->
          ServeHTTP clean hub r tr
          = (Done tt,
             tr ++ [EvLog LvlError "unable to lookup index";
                    EvHTTPError "500 Internal Server Error." 500]))
      /\ (Lookup (lightningHub.template hub) "index.html" <> None ->
          exists out evs,
            fetchHomePage (lightningHub.lnd hub) (lightningHub.cfg hub) tr
            = (out, tr ++ evs)
            /\ (exists b rest, evs = EvRPC lnrpc.MGetInfo b :: rest)
            /\ (exists b, In (EvRPC lnrpc.MGetInfo b) (rpcs_since tr tr'))
            /\ ServeHTTP clean hub r tr
               = match out with
                 | Done (Success _) =>
                     (Done tt,
                      tr ++ evs ++ [EvHTTPError "Method not allowed!" 405])
                 | Done (Failure _) =>
                     (Done tt,
                      tr ++ evs
                        ++ [EvLog LvlError "unable to fetch home state";
                            EvHTTPError "unable to render home page" 500])
                 | Panic msg => (Panic msg, tr ++ evs)
                 end)).
Proof.
  cbv zeta. split; [|split; [|split]].
  - intros Hget Hpost.
    destruct (@ServeHTTP_unlisted_method clean hub r tr Hget Hpost)
      as (e & E & Hred & Hhome & Hother).
    split; [|eauto]. rewrite E. cbn [snd]. rewrite rpcs_since_app.
    destruct (String.eqb_spec (clean (http.Path r)) (http.Path r)) as [Hc|Hc];
      [|now rewrite (Hred Hc)].
    destruct (String.eqb_spec (http.Path r) "/") as [Hp|Hp];
      [now rewrite (Hhome Hc Hp)|].
    rewrite (Hother Hc Hp).
    destruct (strings.HasPrefix (http.Path r) "/static/"); reflexivity.
  - apply ServeHTTP_other_path.
  - intros Hget name data. unfold ServeHTTP, homeMethods. cbv zeta.
    destruct (negb (String.eqb (clean (http.Path r)) (http.Path r)));
      [|destruct (String.eqb (http.Path r) "/");
        [destruct (existsb _ _)|
         destruct (strings.HasPrefix (http.Path r) "/static/")]];
      try (cbn [snd http.Error emit]; rewrite added_app;
           intros [H|[]]; discriminate H).
    destruct (Lookup (lightningHub.template hub) "index.html") eqn:Hl.
    + destruct (@HomePage_run hub r tr) as (out & evs & resp & E & R & S & Hr).
      { rewrite Hl. discriminate. }
      rewrite S, added_app. intros Hin.
      apply in_app_or in Hin. destruct Hin as [Hin|Hin].
      * apply (fetch_run_events R) in Hin. exact Hin.
      * destruct (String.eqb_spec (http.Method r) "GET"); [contradiction|].
        destruct out as [[ctx|err]|msg]; subst resp; cbn in Hin;
          intuition discriminate.
    + rewrite (@HomePage_no_template hub r tr Hl). cbn [snd].
      rewrite added_app. cbn. intuition discriminate.
  - intros Hpost Hpath Hclean.
    assert (Hroute : ServeHTTP clean hub r tr = HomePage hub r tr).
    { unfold ServeHTTP, homeMethods. cbv zeta.
      rewrite Hpath, Hclean, Hpost. reflexivity. }
    split; [exact Hroute|]. split.
    + intros Hl. rewrite Hroute. now apply HomePage_no_template.
    + intros Hidx.
      destruct (@HomePage_with_template hub r tr Hidx)
        as (out & evs & E & R & Hrun).
      exists out, evs. split; [exact E|].
      destruct (fetch_run_events R) as [(b & rest & Hevs) _].
      split; [eauto|].
      rewrite Hroute, Hrun, Hpost.
      replace (String.eqb "POST" "GET") with false by reflexivity.
      split; [|destruct out as [[ctx|err]|msg]; reflexivity].
      exists b. subst evs.
      destruct out as [[ctx|err]|msg]; cbn [snd];
        rewrite rpcs_since_app; cbn; now left.
Qed.

Lemma only_get_renders_witness :
  ServeHTTP mux.cleanPath
            (Examples.hubOf Examples.testnetNode Examples.emptyContext)
            Examples.put []
  = (Done tt, [EvHTTPError "" 405])
  /\ ServeHTTP mux.cleanPath
               (Examples.hubOf Examples.lockedWalletNode Examples.emptyContext)
               Examples.post []
     = (Done tt,
        [EvRPC lnrpc.MGetInfo false;
         EvRPC lnrpc.MListChannels false;
         EvRPC lnrpc.MWalletBalance true;
         EvLog LvlError "unable to fetch home state";
         EvHTTPError "unable to render home page" 500]).
Proof.
  split.
  - destruct (only_get_renders mux.cleanPath
                (Examples.hubOf Examples.testnetNode Examples.emptyContext)
                Examples.put []) as (H & _).
    destruct H as (_ & e & E & _ & He & _); [discriminate|discriminate|].
    rewrite E, (He eq_refl eq_refl). reflexivity.
  - destruct (only_get_renders mux.cleanPath
                (Examples.hubOf Examples.lockedWalletNode
                                Examples.emptyContext)
                Examples.post []) as (_ & _ & _ & H).
    destruct (H eq_refl eq_refl eq_refl) as (_ & _ & Hfetch).
    destruct Hfetch as (out & evs & E & _ & _ & Hrun); [discriminate|].
    pose proof E as E'. vm_compute in E'. injection E' as <- <-.
    exact Hrun.
Defined.

(** C5 as stated fails for POST: the request is not a GET, and serving
    it issues the three queries before it is refused. *)
Lemma post_reaches_the_node :
  http.Method Examples.post <> "GET"%string
  /\ ServeHTTP mux.cleanPath
               (Examples.hubOf Examples.testnetNode Examples.emptyContext)
               Examples.post []
     = (Done tt,
        [EvRPC lnrpc.MGetInfo false;
         EvRPC lnrpc.MListChannels false;
         EvRPC lnrpc.MWalletBalance false;
         EvLog LvlWarn "2";
         EvHTTPError "Method not allowed!" 405]).
Proof.
  split; [discriminate|]. vm_compute. reflexivity.
Qed.

(** ** Construction of the hub *)

(** [newLightningHub] once the certificate, the macaroon and the dial are
    through: what is left is the initial fetch. *)
Lemma newLightningHub_dialled sys cfg template tr creds macBytes mac lnd :
  NewClientTLSFromFile sys (cleanAndExpandPath sys (config.TLSCertPath cfg))
  = Success creds ->
  ReadFile sys (cleanAndExpandPath sys (config.MacaroonPath cfg))
  = Success macBytes ->
  UnmarshalBinary sys macBytes = Success mac ->
  Dial sys (config.RPCHost cfg) creds mac = Success lnd ->
  newLightningHub sys cfg template tr
  = match fetchHomePage lnd cfg tr with
    | (Done (Success homeCtx), tr') =>
        (Done (Success {|
           lightningHub.lnd := lnd;
           lightningHub.template := template;
           lightningHub.cfg := cfg;
           lightningHub.context := homeCtx
         |}), tr')
    | (Done (Failure err), tr') =>
        (Done (Failure ("unable to get initial info: " ++ err)%string),
         tr' ++ [EvLog LvlError err])
    | (Panic msg, tr') => (Panic msg, tr')
    end.
Proof.
  intros Hc Hr Hu Hd. unfold newLightningHub.
  rewrite Hc, Hr, Hu, Hd. unfold bind at 1.
  destruct (fetchHomePage lnd cfg tr) as [[[ctx|err]|msg] tr']; reflexivity.
Qed.

(** A hub that [newLightningHub] returns went through every step. *)
Lemma newLightningHub_inv sys cfg template tr hub tr' :
  newLightningHub sys cfg template tr = (Done (Success hub), tr') ->
  exists creds macBytes mac,
    NewClientTLSFromFile sys
      (cleanAndExpandPath sys (config.TLSCertPath cfg)) = Success creds
    /\ ReadFile sys (cleanAndExpandPath sys (config.MacaroonPath cfg))
       = Success macBytes
    /\ UnmarshalBinary sys macBytes = Success mac
    /\ Dial sys (config.RPCHost cfg) creds mac
       = Success (lightningHub.lnd hub)
    /\ fetchHomePage (lightningHub.lnd hub) cfg tr
       = (Done (Success (lightningHub.context hub)), tr').
Proof.
  intros H. unfold newLightningHub in H.
  destruct (NewClientTLSFromFile sys _) as [creds|e] eqn:Hc;
    [|discriminate H].
  destruct (ReadFile sys _) as [macBytes|e] eqn:Hr; [|discriminate H].
  destruct (UnmarshalBinary sys macBytes) as [mac|e] eqn:Hu;
    [|discriminate H].
  destruct (Dial sys _ creds mac) as [lnd|e] eqn:Hd; [|discriminate H].
  unfold bind at 1 in H.
  destruct (fetchHomePage lnd cfg tr) as [[[ctx|err]|msg] t] eqn:E;
    try discriminate H.
  inversion H; subst; clear H. cbn.
  exists creds, macBytes, mac. auto.
Qed.

(** C10. [newLightningHub] returns a hub only if the certificate loads,
    the macaroon is read and decoded, the dial succeeds and the initial
    fetch returns a snapshot, which takes the three queries to succeed and
    the node's network to be the configured one; the hub holds that
    snapshot.  When the initial fetch fails, an error is returned, and no
    hub; when it panics, so does the construction. *)
Theorem newLightningHub_needs_snapshot sys cfg template tr :
  (forall hub tr',
      newLightningHub sys cfg template tr = (Done (Success hub), tr') ->
      exists creds macBytes mac,
        NewClientTLSFromFile sys
          (cleanAndExpandPath sys (config.TLSCertPath cfg)) = Success creds
        /\ ReadFile sys (cleanAndExpandPath sys (config.MacaroonPath cfg))
           = Success macBytes
        /\ UnmarshalBinary sys macBytes = Success mac
        /\ Dial sys (config.RPCHost cfg) creds mac
           = Success (lightningHub.lnd hub)
        /\ fetchHomePage (lightningHub.lnd hub) cfg tr
           = (Done (Success (lightningHub.context hub)), tr')
        /\ exists info chans bal,
            lnrpc.GetInfo (lightningHub.lnd hub) (served tr) = Success info
            /\ reportedNetwork info = Some (config.Network cfg)
            /\ lnrpc.ListChannels (lightningHub.lnd hub) (S (served tr))
               = Success chans
            /\ lnrpc.WalletBalance (lightningHub.lnd hub) (S (S (served tr)))
               = Success bal)
  /\ (forall creds macBytes mac lnd,
         NewClientTLSFromFile sys
           (cleanAndExpandPath sys (config.TLSCertPath cfg)) = Success creds ->
         ReadFile sys (cleanAndExpandPath sys (config.MacaroonPath cfg))
         = Success macBytes ->
         UnmarshalBinary sys macBytes = Success mac ->
         Dial sys (config.RPCHost cfg) creds mac = Success lnd ->
         (forall err tr',
             fetchHomePage lnd cfg tr = (Done (Failure err), tr') ->
             newLightningHub sys cfg template tr
             = (Done (Failure ("unable to get initial info: " ++ err)%string),
                tr' ++ [EvLog LvlError err]))
         /\ (forall msg tr',
                fetchHomePage lnd cfg tr = (Panic msg, tr') ->
                newLightningHub sys cfg template tr = (Panic msg, tr'))).
Proof.
  split.
  - intros hub tr' H.
    destruct (newLightningHub_inv _ _ _ _ H)
      as (creds & macBytes & mac & Hc & Hr & Hu & Hd & E).
    exists creds, macBytes, mac. repeat split; try assumption.
    apply fetchHomePage_inv in E. destruct E as (evs & _ & R).
    inversion R; subst. eauto 10.
  - intros creds macBytes mac lnd Hc Hr Hu Hd. split.
    + intros err tr' E.
      rewrite (newLightningHub_dialled _ _ _ _ Hc Hr Hu Hd), E. reflexivity.
    + intros msg tr' E.
      rewrite (newLightningHub_dialled _ _ _ _ Hc Hr Hu Hd), E. reflexivity.
Qed.

Lemma newLightningHub_needs_snapshot_witness :
  newLightningHub (Examples.machine Examples.mainnetNode)
                  Examples.testnetCfg ["index.html"%string] []
  = (Done (Failure ("unable to get initial info: "
                      ++ mismatchError "mainnet" "testnet")%string),
     [EvRPC lnrpc.MGetInfo false;
      EvLog LvlError (mismatchError "mainnet" "testnet")]).
Proof.
  destruct (newLightningHub_needs_snapshot
              (Examples.machine Examples.mainnetNode) Examples.testnetCfg
              ["index.html"%string] []) as [_ H].
  destruct (H (certPool "-----BEGIN CERTIFICATE-----") [Byte.x02]
              (macaroonOf [Byte.x02]) Examples.mainnetNode
              eq_refl eq_refl eq_refl eq_refl) as [Hfail _].
  exact (Hfail _ _ eq_refl).
Defined.

(** ** [strings.Replace] with a count of one *)

Lemma Replace1_eq s old new :
  strings.Replace1 s old new
  = if strings.HasPrefix s old
    then (new ++ strings.drop (String.length old) s)%string
    else match s with
         | EmptyString => EmptyString
         | String c s' => String c (strings.Replace1 s' old new)
         end.
Proof.
  destruct s; reflexivity.
Qed.

(** Without an occurrence of [old] the string is returned as it is. *)
Lemma Replace1_absent s old new :
  (forall k, occursAt s old k = false) ->
  strings.Replace1 s old new = s.
Proof.
  induction s as [|c s IH]; intros H; rewrite Replace1_eq.
  - specialize (H 0%nat). unfold occursAt in H. cbn [strings.drop] in H.
    now rewrite H.
  - pose proof (H 0%nat) as H0. unfold occursAt in H0.
    cbn [strings.drop] in H0. rewrite H0. f_equal. apply IH.
    intros k. exact (H (S k)).
Qed.

(** With the leftmost occurrence of [old] at index [k], the result is
    what precedes it, [new], and what follows it. *)
Lemma Replace1_first s old new k :
  firstAt s old k ->
  strings.Replace1 s old new
  = (take k s ++ new ++ strings.drop (k + String.length old) s)%string.
Proof.
  revert s. induction k as [|k IH]; intros s [Hk Hlt]; rewrite Replace1_eq.
  - unfold occursAt in Hk. cbn [strings.drop] in Hk. rewrite Hk.
    destruct s; reflexivity.
  - pose proof (Hlt 0%nat (Nat.lt_0_succ k)) as H0. unfold occursAt in H0.
    cbn [strings.drop] in H0. rewrite H0.
    destruct s as [|c s].
    + unfold occursAt in Hk. cbn [strings.drop] in Hk. congruence.
    + cbn [take Nat.add strings.drop String.append]. f_equal. apply IH.
      split; [exact Hk|].
      intros j Hj. apply (Hlt (S j)). lia.
Qed.

(** ** [loadConfig] *)

Lemma set_keeps_Network c o : config.Network (flags.set c o) = config.Network c.
Proof.
  destruct c, o; reflexivity.
Qed.

Lemma store_keeps_Network os c :
  config.Network (flags.store c os) = config.Network c.
Proof.
  revert c. unfold flags.store.
  induction os as [|o os IH]; intros c; [reflexivity|].
  cbn [fold_left]. now rewrite IH, set_keeps_Network.
Qed.

Lemma store_keeps_paths os c :
  forallb (fun o => negb (namesPath o)) os = true ->
  config.TLSCertPath (flags.store c os) = config.TLSCertPath c
  /\ config.MacaroonPath (flags.store c os) = config.MacaroonPath c.
Proof.
  revert c. unfold flags.store.
  induction os as [|o os IH]; intros c H; [now split|].
  cbn [forallb] in H. apply andb_prop in H. destruct H as [Ho Hos].
  cbn [fold_left]. destruct (IH (flags.set c o) Hos) as [-> ->].
  destruct c, o; cbn in Ho |- *; (discriminate Ho || now split).
Qed.

Lemma selectNetwork_no_flag c :
  config.MainNet c = false -> config.TestNet c = false ->
  config.SimNet c = false ->
  selectNetwork c = (0%nat, c).
Proof.
  unfold selectNetwork. now intros -> -> ->.
Qed.

Lemma setPaths_fields c cert mac :
  config.Network (setPaths c cert mac) = config.Network c
  /\ config.UseLeHTTPS (setPaths c cert mac) = config.UseLeHTTPS c
  /\ config.Domain (setPaths c cert mac) = config.Domain c
  /\ config.TLSCertPath (setPaths c cert mac) = cert
  /\ config.MacaroonPath (setPaths c cert mac) = mac.
Proof.
  destruct c. cbn. auto.
Qed.

(** [loadConfig] when the parsers go through, no network flag is set and
    the steps that follow go through. *)
Lemma loadConfig_no_flag env tr args :
  (forall msg,
      fst (preParse env)
      <> Some {| flags.help := true; flags.message := msg |}) ->
  (forall err, ParseFile env (configFileOf env) <> flags.IniError err) ->
  snd (Parse env) = Success args ->
  config.MainNet (parsedConfig env) = false ->
  config.TestNet (parsedConfig env) = false ->
  config.SimNet (parsedConfig env) = false ->
  MkdirAll env (defaultDataDir env) = None ->
  (forall p t, exists t', initLogRotator env p t = (Done tt, t')) ->
  (forall l t, exists t', setLogLevels env l t = (Done tt, t')) ->
  config.UseLeHTTPS (parsedConfig env)
  && String.eqb (config.Domain (parsedConfig env)) "" = false ->
  exists tr',
    loadConfig env tr
    = (Done (strings.Replace1 (defaultLogPath env) "testnet" "",
             Success
               (setPaths (parsedConfig env)
                  (strings.Replace1 (config.TLSCertPath (parsedConfig env))
                                    "testnet" "")
                  (strings.Replace1 (config.MacaroonPath (parsedConfig env))
                                    "testnet" ""),
                args)),
       tr').
Proof.
  intros Hpre Hini Hparse Hmain Htest Hsim Hmk Hrot Hlvl Hle.
  assert (Hnet : config.Network (parsedConfig env) = ""%string).
  { unfold parsedConfig. now rewrite !store_keeps_Network. }
  unfold parsedConfig, configFileOf in *. unfold loadConfig.
  set (file := if String.eqb _ "" then _ else _) in *.
  destruct (Hrot (strings.Replace1 (defaultLogPath env) "testnet" "") tr)
    as [t1 H1].
  destruct (Hlvl defaultLogLevel t1) as [t2 H2].
  destruct (fst (preParse env)) as [[[|] msg]|] eqn:Hp;
    [now elim (Hpre msg)| |];
    (destruct (ParseFile env file) as [os|err|err] eqn:Hfile;
     [ | |now elim (Hini err)];
     cbn [fileOptions] in *; cbv beta iota zeta;
     try change (flags.store (defaultConfig env) [])
           with (defaultConfig env) in *;
     rewrite Hparse, (selectNetwork_no_flag _ Hmain Htest Hsim);
     cbn [Nat.ltb Nat.leb]; rewrite Hmk, Hnet;
     match goal with
     | |- context [setPaths ?c ?a ?b] =>
         destruct (setPaths_fields c a b) as (Hn & Hu & Hd & _);
         rewrite Hn, Hu, Hd, ?Hnet, Hle
     end;
     unfold bind; rewrite H1, H2; unfold log.Warn, emit, ret; eauto).
Qed.

Lemma fetchHomePage_mismatch lnd cfg tr info net :
  lnrpc.GetInfo lnd (served tr) = Success info ->
  reportedNetwork info = Some net ->
  net <> config.Network cfg ->
  fetchHomePage lnd cfg tr
  = (Done (Failure (mismatchError net (config.Network cfg))),
     tr ++ [EvRPC lnrpc.MGetInfo false]).
Proof.
  intros Hinfo Hnet Hne.
  destruct (fetchHomePage_run lnd cfg tr) as (o & evs & E & R).
  rewrite E.
  destruct R as [err H|i H H0|i n H H0 H1|i err H H0 H1|i c err H H0 H1 H2
                |i c bl H H0 H1 H2];
    rewrite Hinfo in H; inversion H; subst i; clear H;
    rewrite Hnet in H0; inversion H0; subst; clear H0;
    solve [reflexivity | now elim Hne].
Qed.

(** C9, as the code has it. With no network flag set, and the parsers,
    the directory creation, the log set-up and the HTTPS check going
    through, [loadConfig] returns a configuration whose network is the
    empty string; the certificate and macaroon paths and the log path are
    the parsed ones, the default ones unless an option named a path, with
    the leftmost "testnet" cut out (and unchanged when there is none).
    With that configuration the network check of [fetchHomePage] fails for
    every label the node reports other than the empty string. *)
Theorem loadConfig_without_network_flag env tr args :
  (forall msg,
      fst (preParse env)
      <> Some {| flags.help := true; flags.message := msg |}) ->
  (forall err, ParseFile env (configFileOf env) <> flags.IniError err) ->
  snd (Parse env) = Success args ->
  config.MainNet (parsedConfig env) = false ->
  config.TestNet (parsedConfig env) = false ->
  config.SimNet (parsedConfig env) = false ->
  MkdirAll env (defaultDataDir env) = None ->
  (forall p t, exists t', initLogRotator env p t = (Done tt, t')) ->
  (forall l t, exists t', setLogLevels env l t = (Done tt, t')) ->
  config.UseLeHTTPS (parsedConfig env)
  && String.eqb (config.Domain (parsedConfig env)) "" = false ->
  exists cfg logPath tr',
    loadConfig env tr = (Done (logPath, Success (cfg, args)), tr')
    /\ config.Network cfg = ""%string
    /\ config.TLSCertPath cfg
       = strings.Replace1 (config.TLSCertPath (parsedConfig env)) "testnet" ""
    /\ config.MacaroonPath cfg
       = strings.Replace1 (config.MacaroonPath (parsedConfig env)) "testnet" ""
    /\ logPath = strings.Replace1 (defaultLogPath env) "testnet" ""
    /\ (forallb (fun o => negb (namesPath o))
          (fileOptions (ParseFile env (configFileOf env)) ++ fst (Parse env))
        = true ->
        config.TLSCertPath cfg
        = strings.Replace1 (defaultDcrlndTLSCertPath env) "testnet" ""
        /\ config.MacaroonPath cfg
           = strings.Replace1 (defaultDcrlndMacaroonPath env) "testnet" "")
    /\ (forall s k, firstAt s "testnet" k ->
          strings.Replace1 s "testnet" ""
          = (take k s ++ strings.drop (k + 7) s)%string)
    /\ (forall s, (forall k, occursAt s "testnet" k = false) ->
          strings.Replace1 s "testnet" "" = s)
    /\ (forall lnd t info net,
          lnrpc.GetInfo lnd (served t) = Success info ->
          reportedNetwork info = Some net ->
          net <> ""%string ->
          fst (fetchHomePage lnd cfg t)
          = Done (Failure (mismatchError net ""))).
Proof.
  intros Hpre Hini Hparse Hmain Htest Hsim Hmk Hrot Hlvl Hle.
  destruct (@loadConfig_no_flag env tr args Hpre Hini Hparse Hmain Htest
              Hsim Hmk Hrot Hlvl Hle) as [tr' E].
  assert (Hnet : config.Network (parsedConfig env) = ""%string).
  { unfold parsedConfig. now rewrite !store_keeps_Network. }
  do 3 eexists. split; [exact E|].
  match goal with
  | |- context [setPaths ?c ?a ?b] =>
      destruct (setPaths_fields c a b) as (Hn & _ & _ & Hc & Hm)
  end.
  rewrite Hn, Hc, Hm, Hnet.
  repeat match goal with |- _ /\ _ => split end; try reflexivity.
  - intros Hopts. rewrite forallb_app in Hopts.
    apply andb_prop in Hopts. destruct Hopts as [Hf Hc'].
    unfold parsedConfig.
    destruct (store_keeps_paths (fst (Parse env))
                (flags.store (defaultConfig env)
                   (fileOptions (ParseFile env (configFileOf env)))) Hc')
      as [-> ->].
    destruct (store_keeps_paths _ (defaultConfig env) Hf) as [-> ->].
    split; reflexivity.
  - intros s k Hk. now rewrite (Replace1_first "" Hk).
  - intros s Hs. now apply Replace1_absent.
  - intros lnd t info net Hinfo Hrep Hne.
    erewrite fetchHomePage_mismatch; try eassumption.
    + cbn [fst]. now rewrite Hn, Hnet.
    + now rewrite Hn, Hnet.
Qed.

Lemma loadConfig_without_network_flag_witness :
  exists cfg logPath tr',
    loadConfig Examples.bareStartup []
    = (Done (logPath, Success (cfg, [])), tr')
    /\ config.Network cfg = ""%string
    /\ config.MacaroonPath cfg
       = "/home/hub/.dcrlnd/data/chain/decred//admin.macaroon"%string
    /\ logPath = "/home/hub/.dcrlnhub/logs/decred//dcrlnhub.log"%string
    /\ fst (fetchHomePage Examples.testnetNode cfg [])
       = Done (Failure (mismatchError "testnet" "")).
Proof.
  destruct (@loadConfig_without_network_flag Examples.bareStartup [] [])
    as (cfg & logPath & tr' & E & Hn & _ & Hm & Hl & _ & _ & _ & Hcheck).
  - intros msg. discriminate.
  - intros err. discriminate.
  - reflexivity.
  - reflexivity.
  - reflexivity.
  - reflexivity.
  - reflexivity.
  - intros p t. eexists. reflexivity.
  - intros l t. eexists. reflexivity.
  - reflexivity.
  - exists cfg, logPath, tr'. split; [exact E|]. split; [exact Hn|].
    split; [rewrite Hm; reflexivity|]. split; [rewrite Hl; reflexivity|].
    apply (Hcheck Examples.testnetNode []
             (Examples.infoOn "testnet" [Examples.uri] 2) "testnet"%string
             eq_refl eq_refl).
    discriminate.
Defined.

(** C9 as stated fails for a node that reports the empty string as its
    network: with no flag set the configured network is the empty string
    too, the check passes and the fetch returns a snapshot. *)
Lemma unnamed_network_passes_check :
  exists cfg logPath tr' ctx,
    loadConfig Examples.bareStartup []
    = (Done (logPath, Success (cfg, [])), tr')
    /\ config.Network cfg = ""%string
    /\ reportedNetwork (Examples.infoOn "" [Examples.uri] 2) = Some ""%string
    /\ fst (fetchHomePage Examples.unnamedNetNode cfg tr')
       = Done (Success ctx).
Proof.
  do 4 eexists. split; [vm_compute; reflexivity|].
  split; [reflexivity|]. split; [reflexivity|].
  vm_compute. reflexivity.
Qed.

(** ** Start-up without a network flag *)

(** With no network flag set, [main] gets to serve a hub only for a node
    that reported the empty string as its network. *)
Lemma main_without_network_flag env sys ParseGlob tr args hub :
  (forall msg,
      fst (preParse env)
      <> Some {| flags.help := true; flags.message := msg |}) ->
  (forall err, ParseFile env (configFileOf env) <> flags.IniError err) ->
  snd (Parse env) = Success args ->
  config.MainNet (parsedConfig env) = false ->
  config.TestNet (parsedConfig env) = false ->
  config.SimNet (parsedConfig env) = false ->
  MkdirAll env (defaultDataDir env) = None ->
  (forall p t, exists t', initLogRotator env p t = (Done tt, t')) ->
  (forall l t, exists t', setLogLevels env l t = (Done tt, t')) ->
  config.UseLeHTTPS (parsedConfig env)
  && String.eqb (config.Domain (parsedConfig env)) "" = false ->
  fst (main env sys ParseGlob tr) = Done (Some hub) ->
  exists t info,
    lnrpc.GetInfo (lightningHub.lnd hub) t = Success info
    /\ reportedNetwork info = Some ""%string.
Proof.
  intros Hpre Hini Hparse Hmain Htest Hsim Hmk Hrot Hlvl Hle Hserve.
  destruct (@loadConfig_no_flag env tr args Hpre Hini Hparse Hmain Htest
              Hsim Hmk Hrot Hlvl Hle) as [tr' E].
  assert (Hnet : config.Network (parsedConfig env) = ""%string).
  { unfold parsedConfig. now rewrite !store_keeps_Network. }
  unfold main in Hserve. unfold bind at 1 in Hserve.
  rewrite E in Hserve. cbn [snd] in Hserve.
  destruct (ParseGlob "static/*.html") as [hubTemplate|perr];
    [|discriminate Hserve].
  unfold bind at 1 in Hserve.
  match type of Hserve with
  | context [newLightningHub sys ?c hubTemplate tr'] =>
      destruct (newLightningHub sys c hubTemplate tr')
        as [[[h|err]|msg] t] eqn:Hnew;
      [pose proof (setPaths_fields (parsedConfig env)
                     (config.TLSCertPath c) (config.MacaroonPath c))
         as (Hn & _)| |]
  end; cbn in Hserve; try discriminate Hserve.
  inversion Hserve; subst h; clear Hserve.
  destruct (newLightningHub_inv _ _ _ _ Hnew)
    as (_ & _ & _ & _ & _ & _ & _ & Hfetch).
  apply fetchHomePage_inv in Hfetch. destruct Hfetch as (evs & _ & R).
  inversion R as [| | | | |info c bal Hi Hrep Hc Hb Hctx Hevs]; subst.
  exists (served tr'), info. split; [exact Hi|].
  rewrite Hrep. f_equal.
  destruct (parsedConfig env); cbn in Hnet |- *. exact Hnet.
Qed.

(** * Further properties of the code *)

(** ** The queries of a fetch *)

Lemma queries_app (a b : list event) :
  queries (a ++ b) = queries a ++ queries b.
Proof.
  unfold queries. apply flat_map_app.
Qed.

Lemma queries_uriEvents info : queries (uriEvents info) = [].
Proof.
  unfold uriEvents. destruct (lnrpc.Uris info); reflexivity.
Qed.

(** X1. A fetch asks GetInfo, ListChannels and WalletBalance in this
    order, each at most once, and stops at the first query that fails: the
    queries of a run are one of five sequences, and the run returns a
    snapshot exactly when all three were asked and none failed. *)
Theorem fetchHomePage_query_sequence lnd cfg tr out tr' :
  fetchHomePage lnd cfg tr = (out, tr') ->
  let qs := queries (added tr tr') in
  (qs = [(lnrpc.MGetInfo, true)]
   \/ qs = [(lnrpc.MGetInfo, false)]
   \/ qs = [(lnrpc.MGetInfo, false); (lnrpc.MListChannels, true)]
   \/ qs = [(lnrpc.MGetInfo, false); (lnrpc.MListChannels, false);
            (lnrpc.MWalletBalance, true)]
   \/ qs = [(lnrpc.MGetInfo, false); (lnrpc.MListChannels, false);
            (lnrpc.MWalletBalance, false)])
  /\ ((exists ctx, out = Done (Success ctx))
      <-> qs = [(lnrpc.MGetInfo, false); (lnrpc.MListChannels, false);
                (lnrpc.MWalletBalance, false)]).
Proof.
  intros H. apply fetchHomePage_inv in H. destruct H as (evs & -> & R).
  cbv zeta. rewrite added_app.
  destruct R; cbn [queries flat_map app];
    try (change (flat_map _ (uriEvents info ++ ?l))
           with (queries (uriEvents info ++ l));
         rewrite queries_app, queries_uriEvents);
    cbn; (split; [tauto|]);
    (split; [intros [ctx Hc]; (discriminate Hc || reflexivity)
            |intros Hq; (discriminate Hq || eauto)]).
Qed.

Lemma fetchHomePage_query_sequence_witness :
  queries (snd (fetchHomePage Examples.lockedWalletNode Examples.testnetCfg []))
  = [(lnrpc.MGetInfo, false); (lnrpc.MListChannels, false);
     (lnrpc.MWalletBalance, true)].
Proof.
  destruct (@fetchHomePage_query_sequence Examples.lockedWalletNode
              Examples.testnetCfg [] _ _ eq_refl) as [_ _].
  reflexivity.
Defined.

(** X2. The network check comes before every other query: when the node
    reports a network other than the configured one, the run consists of
    the GetInfo call alone, nothing is logged, and the result is the same
    whatever the node would answer to the other two queries. *)
Theorem fetchHomePage_checks_network_first lnd lnd' cfg tr info net :
  lnrpc.GetInfo lnd (served tr) = Success info ->
  lnrpc.GetInfo lnd' (served tr) = Success info ->
  reportedNetwork info = Some net ->
  net <> config.Network cfg ->
  added tr (snd (fetchHomePage lnd cfg tr)) = [EvRPC lnrpc.MGetInfo false]
  /\ fetchHomePage lnd' cfg tr = fetchHomePage lnd cfg tr.
Proof.
  intros Hinfo Hinfo' Hnet Hne.
  assert (Hrun : forall l,
             lnrpc.GetInfo l (served tr) = Success info ->
             fetchHomePage l cfg tr
             = (Done (Failure (mismatchError net (config.Network cfg))),
                tr ++ [EvRPC lnrpc.MGetInfo false])).
  { intros l Hl. unfold fetchHomePage. rewrite bind_call, Hl.
    unfold reportedNetwork in Hnet.
    destruct (lnrpc.Chains info) as [|chain0 chains]; [discriminate Hnet|].
    inversion Hnet; subst net. cbv zeta.
    destruct (String.eqb_spec (lnrpc.Network chain0) (config.Network cfg));
      [contradiction|reflexivity]. }
  rewrite (Hrun lnd Hinfo), (Hrun lnd' Hinfo'). cbn [snd].
  now rewrite added_app.
Qed.

Lemma fetchHomePage_checks_network_first_witness :
  added [] (snd (fetchHomePage Examples.mainnetNode Examples.testnetCfg []))
  = [EvRPC lnrpc.MGetInfo false].
Proof.
  apply (@fetchHomePage_checks_network_first Examples.mainnetNode
           Examples.mainnetNode Examples.testnetCfg []
           (Examples.infoOn "mainnet" [Examples.uri] 2) "mainnet"%string
           eq_refl eq_refl eq_refl).
  discriminate.
Defined.

(** X3. Every snapshot is of the configured network, its balance is the
    confirmed balance of the wallet answer, whatever the total and the
    unconfirmed balances are, and its donation fields are empty. *)
Theorem snapshot_network_and_balance lnd cfg tr ctx tr' :
  fetchHomePage lnd cfg tr = (Done (Success ctx), tr') ->
  templateContext.Network ctx = config.Network cfg
  /\ (exists bal,
         lnrpc.WalletBalance lnd (S (S (served tr))) = Success bal
         /\ templateContext.Balance ctx = lnrpc.ConfirmedBalance bal)
  /\ templateContext.DonationAddr ctx = ""%string
  /\ templateContext.DonationInvoice ctx = ""%string.
Proof.
  intros H. apply fetchHomePage_inv in H. destruct H as (evs & _ & R).
  inversion R; subst. cbn. repeat split. eauto.
Qed.

Lemma snapshot_network_and_balance_witness :
  exists ctx,
    fst (fetchHomePage Examples.testnetNode Examples.testnetCfg [])
    = Done (Success ctx)
    /\ templateContext.Network ctx = "testnet"%string
    /\ templateContext.Balance ctx = 750000.
Proof.
  eexists. split; [vm_compute; reflexivity|].
  destruct (@snapshot_network_and_balance Examples.testnetNode
              Examples.testnetCfg [] _ _ eq_refl)
    as (Hn & (bal & Hb & Hbal) & _).
  split; [exact Hn|].
  etransitivity; [exact Hbal|]. now inversion Hb.
Defined.

(** ** The aggregate capacity, algebraically *)

Lemma wrap_add_r a b : Int64.wrap (a + Int64.wrap b) = Int64.wrap (a + b).
Proof.
  rewrite Z.add_comm, wrap_add_l. f_equal. ring.
Qed.

Lemma capacitySum_app a b :
  capacitySum (a ++ b) = capacitySum a + capacitySum b.
Proof.
  induction a as [|c a IH]; [reflexivity|].
  change (capacitySum ((c :: a) ++ b))
    with (lnrpc.Capacity c + capacitySum (a ++ b)).
  change (capacitySum (c :: a)) with (lnrpc.Capacity c + capacitySum a).
  rewrite IH. ring.
Qed.

Lemma capacitySum_perm a b :
  Permutation a b -> capacitySum a = capacitySum b.
Proof.
  induction 1 as [|x l l' _ IH|x y l|l l' l'' _ IH1 _ IH2].
  - reflexivity.
  - change (lnrpc.Capacity x + capacitySum l
            = lnrpc.Capacity x + capacitySum l'). now rewrite IH.
  - change (lnrpc.Capacity y + (lnrpc.Capacity x + capacitySum l)
            = lnrpc.Capacity x + (lnrpc.Capacity y + capacitySum l)). ring.
  - now rewrite IH1.
Qed.

(** X4. The aggregate capacity does not depend on the order in which the
    node lists the channels, wrap-around included. *)
Theorem sumCapacity_order_irrelevant chans chans' :
  Permutation chans chans' ->
  sumCapacity 0 chans = sumCapacity 0 chans'.
Proof.
  intros H. rewrite !sumCapacity_wraps. f_equal. now apply capacitySum_perm.
Qed.

Lemma sumCapacity_order_irrelevant_witness :
  sumCapacity 0 [Examples.channelOf "03bb" 1500000;
                 Examples.channelOf "03aa" 500000]
  = sumCapacity 0 (lnrpc.Channels Examples.twoChannels).
Proof.
  apply sumCapacity_order_irrelevant. apply perm_swap.
Defined.

(** X5. The aggregate of a list made of two parts is the [int64] sum of
    the aggregates of the parts, and the aggregate of the list with one
    more channel at its end is the aggregate so far plus that channel's
    capacity, in [int64] arithmetic. *)
Theorem sumCapacity_app chans chans' c :
  sumCapacity 0 (chans ++ chans')
  = Int64.add (sumCapacity 0 chans) (sumCapacity 0 chans')
  /\ sumCapacity 0 (chans ++ [c])
     = Int64.add (sumCapacity 0 chans) (lnrpc.Capacity c).
Proof.
  split.
  - rewrite !sumCapacity_wraps, capacitySum_app. unfold Int64.add.
    now rewrite wrap_add_l, wrap_add_r.
  - rewrite !sumCapacity_wraps, capacitySum_app. unfold Int64.add.
    rewrite wrap_add_l. f_equal. cbn. ring.
Qed.

(** ** The handler's answers *)

Lemma responses_app (a b : list event) :
  responses (a ++ b) = responses a ++ responses b.
Proof.
  unfold responses. apply filter_app.
Qed.

(** A fetch writes nothing to the response. *)
Lemma fetch_run_no_response lnd cfg tr out evs :
  fetch_run lnd cfg tr out evs -> responses evs = [].
Proof.
  intros R. pose proof (proj2 (fetch_run_events R)) as H.
  clear R. unfold responses.
  induction evs as [|e evs IH]; [reflexivity|].
  cbn [filter].
  pose proof (H e (or_introl eq_refl)) as He.
  destruct e as [m b|[] msg|body code|name data|path|loc code];
    try contradiction; cbn; apply IH; intros e' He'; apply H; now right.
Qed.

(** X6. Every request the router is given is answered once: a run of
    the router that returns has produced exactly one answer (a rendered
    page, an error status, a redirect to the canonical path, or the
    hand-over to the static file server), and a run that panics has
    produced none; it panics only on the home page, when the node's GetInfo
    answer has no chain entry. *)
Theorem ServeHTTP_answers_once clean hub r tr :
  match ServeHTTP clean hub r tr with
  | (Done _, tr') => List.length (responses (added tr tr')) = 1%nat
  | (Panic msg, tr') =>
      responses (added tr tr') = []
      /\ msg = indexPanic
      /\ http.Path r = "/"%string
      /\ exists info,
          lnrpc.GetInfo (lightningHub.lnd hub) (served tr) = Success info
          /\ lnrpc.Chains info = []
  end.
Proof.
  unfold ServeHTTP. cbv zeta.
  destruct (negb (String.eqb (clean (http.Path r)) (http.Path r))).
  { cbn [emit]. now rewrite added_app. }
  destruct (String.eqb_spec (http.Path r) "/") as [Hpath|Hpath].
  2:{ destruct (strings.HasPrefix (http.Path r) "/static/");
        cbn [http.Error emit]; now rewrite added_app. }
  destruct (existsb (String.eqb (http.Method r)) homeMethods).
  2:{ cbn [http.Error emit]. now rewrite added_app. }
  destruct (Lookup (lightningHub.template hub) "index.html") as [s|] eqn:Hl.
  2:{ rewrite (@HomePage_no_template hub r tr Hl).
      now rewrite added_app. }
  assert (Hidx : Lookup (lightningHub.template hub) "index.html" <> None)
    by (rewrite Hl; discriminate).
  destruct (@HomePage_with_template hub r tr Hidx)
    as (out & evs & E & R & Hrun).
  pose proof (fetch_run_no_response R) as Hnone.
  rewrite Hrun.
  destruct out as [[homeInfo|err]|msg].
  - rewrite added_app, responses_app, Hnone.
    destruct (String.eqb (http.Method r) "GET"); reflexivity.
  - rewrite added_app, responses_app, Hnone. reflexivity.
  - rewrite added_app. repeat split; try assumption.
    + inversion R; reflexivity.
    + inversion R; subst. unfold reportedNetwork in *.
      destruct (lnrpc.Chains info) eqn:Hc; [eauto|discriminate].
Qed.



(** X8. A GET of the home page renders the snapshot fetched for this
    request; the snapshot the hub was built with is not read by the
    handler, for any request. *)
Theorem HomePage_renders_fresh_snapshot h r tr ctx tr' :
  Lookup (lightningHub.template h) "index.html" <> None ->
  http.Method r = "GET"%string ->
  fetchHomePage (lightningHub.lnd h) (lightningHub.cfg h) tr
  = (Done (Success ctx), tr') ->
  HomePage h r tr = (Done tt, tr' ++ [EvExecute "index.html" ctx])
  /\ forall stale r' tr0,
      HomePage (withContext h stale) r' tr0 = HomePage h r' tr0.
Proof.
  intros Hidx Hget E. split; [|reflexivity].
  unfold HomePage.
  destruct (Lookup (lightningHub.template h) "index.html") as [name|] eqn:Hl;
    [|contradiction].
  assert (name = "index.html"%string) as ->.
  { unfold Lookup in Hl. destruct (existsb _ _); now inversion Hl. }
  unfold bind at 1. rewrite E, Hget. reflexivity.
Qed.

Lemma HomePage_renders_fresh_snapshot_witness :
  exists ctx tr',
    HomePage (Examples.hubOf Examples.testnetNode Examples.emptyContext)
             {| http.Method := "GET"; http.Path := "/" |} []
    = (Done tt, tr' ++ [EvExecute "index.html" ctx])
    /\ templateContext.Capacity ctx = 2000000.
Proof.
  do 2 eexists. split.
  - eapply (@HomePage_renders_fresh_snapshot
              (Examples.hubOf Examples.testnetNode Examples.emptyContext)
              {| http.Method := "GET"; http.Path := "/" |} []).
    + discriminate.
    + reflexivity.
    + vm_compute. reflexivity.
  - reflexivity.
Defined.

(** ** Construction of the hub, step by step *)

(** X9. The steps of [newLightningHub] before the fetch fail without a
    trace: a certificate that cannot be loaded, a macaroon that cannot be
    read or decoded and a dial that fails each end the construction with an
    error, the certificate's and the dial's under a prefix and the
    macaroon's as it is, and the node is not queried and nothing is
    logged; a construction that leaves any trace got through all four
    steps. *)
Theorem newLightningHub_early_failures sys cfg template tr :
  let cert := NewClientTLSFromFile sys
                (cleanAndExpandPath sys (config.TLSCertPath cfg)) in
  let file := ReadFile sys
                (cleanAndExpandPath sys (config.MacaroonPath cfg)) in
  (forall err, cert = Failure err ->
      newLightningHub sys cfg template tr
      = (Done (Failure ("unable to read cert file: " ++ err)%string), tr))
  /\ (forall creds err, cert = Success creds -> file = Failure err ->
         newLightningHub sys cfg template tr = (Done (Failure err), tr))
  /\ (forall creds macBytes err,
         cert = Success creds -> file = Success macBytes ->
         UnmarshalBinary sys macBytes = Failure err ->
         newLightningHub sys cfg template tr = (Done (Failure err), tr))
  /\ (forall creds macBytes mac err,
         cert = Success creds -> file = Success macBytes ->
         UnmarshalBinary sys macBytes = Success mac ->
         Dial sys (config.RPCHost cfg) creds mac = Failure err ->
         newLightningHub sys cfg template tr
         = (Done (Failure ("unable to dial to dcrlnd's gRPC server: "
                             ++ err)%string), tr))
  /\ (forall out tr',
         newLightningHub sys cfg template tr = (out, tr') ->
         tr' <> tr ->
         exists creds macBytes mac lnd,
           cert = Success creds /\ file = Success macBytes
           /\ UnmarshalBinary sys macBytes = Success mac
           /\ Dial sys (config.RPCHost cfg) creds mac = Success lnd).
Proof.
  cbv zeta. unfold newLightningHub.
  split; [|split; [|split; [|split]]].
  - intros err ->. reflexivity.
  - intros creds err -> ->. reflexivity.
  - intros creds macBytes err -> -> ->. reflexivity.
  - intros creds macBytes mac err -> -> -> ->. reflexivity.
  - intros out tr' H Hne.
    destruct (NewClientTLSFromFile sys _) as [creds|e];
      [|inversion H; congruence].
    destruct (ReadFile sys _) as [macBytes|e]; [|inversion H; congruence].
    destruct (UnmarshalBinary sys macBytes) as [mac|e] eqn:Hu;
      [|inversion H; congruence].
    destruct (Dial sys _ creds mac) as [lnd|e] eqn:Hd;
      [|inversion H; congruence].
    exists creds, macBytes, mac, lnd. auto.
Qed.

Lemma newLightningHub_early_failures_witness :
  newLightningHub Startups.noCertificate Examples.testnetCfg
                  ["index.html"%string] []
  = (Done (Failure "unable to read cert file: open /home/hub/.dcrlnd/tls.cert: no such file"),
     []).
Proof.
  destruct (newLightningHub_early_failures Startups.noCertificate
              Examples.testnetCfg ["index.html"%string] []) as [H _].
  exact (H _ eq_refl).
Defined.

(** X10. A hub that [newLightningHub] returns holds the configuration
    and the templates it was given and a snapshot of the configured
    network; building it took exactly the three queries, all answered, and
    logged no error. *)
Theorem newLightningHub_hub sys cfg template tr hub tr' :
  newLightningHub sys cfg template tr = (Done (Success hub), tr') ->
  lightningHub.cfg hub = cfg
  /\ lightningHub.template hub = template
  /\ templateContext.Network (lightningHub.context hub) = config.Network cfg
  /\ queries (added tr tr')
     = [(lnrpc.MGetInfo, false); (lnrpc.MListChannels, false);
        (lnrpc.MWalletBalance, false)]
  /\ forall msg, ~ In (EvLog LvlError msg) (added tr tr').
Proof.
  intros H.
  destruct (newLightningHub_inv _ _ _ _ H)
    as (creds & macBytes & mac & Hc & Hr & Hu & Hd & E).
  rewrite (@newLightningHub_dialled sys cfg template tr _ _ _ _ Hc Hr Hu Hd),
    E in H.
  destruct hub as [l t c x]. cbn in *. inversion H; subst t c. clear H.
  apply fetchHomePage_inv in E. destruct E as (evs & -> & R).
  rewrite added_app.
  split; [reflexivity|]. split; [reflexivity|].
  pose proof (proj2 (fetch_run_events R)) as Hk.
  inversion R as [| | | | |info ch bal Hi Hn Hch Hb Hctx Hevs].
  subst x. cbn [templateContext.Network].
  split; [reflexivity|]. split.
  - change (queries (EvRPC lnrpc.MGetInfo false
                       :: uriEvents info
                       ++ [EvRPC lnrpc.MListChannels false;
                           EvRPC lnrpc.MWalletBalance false;
                           EvLog LvlWarn
                             (sprint_uint (lnrpc.NumActiveChannels info))]))
      with ((lnrpc.MGetInfo, false)
              :: queries (uriEvents info
                          ++ [EvRPC lnrpc.MListChannels false;
                              EvRPC lnrpc.MWalletBalance false;
                              EvLog LvlWarn
                                (sprint_uint
                                   (lnrpc.NumActiveChannels info))])).
    now rewrite queries_app, queries_uriEvents.
  - intros msg Hin. rewrite Hevs in Hin. exact (Hk _ Hin).
Qed.

Lemma newLightningHub_hub_witness :
  exists hub tr',
    newLightningHub (Examples.machine Examples.testnetNode)
                    Examples.testnetCfg ["index.html"%string] []
    = (Done (Success hub), tr')
    /\ templateContext.Network (lightningHub.context hub) = "testnet"%string.
Proof.
  do 2 eexists. split; [vm_compute; reflexivity|].
  apply (@newLightningHub_hub (Examples.machine Examples.testnetNode)
           Examples.testnetCfg ["index.html"%string] [] _ _ eq_refl).
Defined.

(** ** [loadConfig], case by case *)

Lemma selectNetwork_eq c :
  selectNetwork c = (flagCount c, setNetwork c (flaggedNetwork c)).
Proof.
  destruct c as [cf ba rh tc mp le dm nw [|] [|] [|]]; reflexivity.
Qed.

Lemma setNetwork_fields c v :
  config.Network (setNetwork c v) = v
  /\ config.TLSCertPath (setNetwork c v) = config.TLSCertPath c
  /\ config.MacaroonPath (setNetwork c v) = config.MacaroonPath c
  /\ config.UseLeHTTPS (setNetwork c v) = config.UseLeHTTPS c
  /\ config.Domain (setNetwork c v) = config.Domain c.
Proof.
  destruct c. cbn. auto.
Qed.

(** What a successful [loadConfig] went through. *)
Lemma loadConfig_success_inv env tr logPath cfg args tr' :
  loadConfig env tr = (Done (logPath, Success (cfg, args)), tr') ->
  let parsed := parsedConfig env in
  let net := flaggedNetwork parsed in
  snd (Parse env) = Success args
  /\ (flagCount parsed <= 1)%nat
  /\ MkdirAll env (defaultDataDir env) = None
  /\ cfg = setPaths (setNetwork parsed net)
             (strings.Replace1 (config.TLSCertPath parsed) "testnet" net)
             (strings.Replace1 (config.MacaroonPath parsed) "testnet" net)
  /\ logPath = strings.Replace1 (defaultLogPath env) "testnet" net
  /\ config.UseLeHTTPS parsed && String.eqb (config.Domain parsed) "" = false
  /\ exists t1 t2,
      initLogRotator env logPath tr = (Done tt, t1)
      /\ setLogLevels env defaultLogLevel t1 = (Done tt, t2)
      /\ tr' = t2 ++ match ParseFile env (configFileOf env) with
                     | flags.IniPathError err => [EvLog LvlWarn err]
                     | _ => []
                     end.
Proof.
  intros H. cbv zeta. unfold parsedConfig, configFileOf.
  unfold loadConfig in H.
  set (file := if String.eqb _ "" then _ else _) in *.
  destruct (fst (preParse env)) as [[[|] msg]|] eqn:Hp;
    [discriminate H| |];
    (destruct (ParseFile env file) as [os|err|err] eqn:Hfile;
     [ | |discriminate H]);
    cbn [fileOptions]; cbv beta iota zeta in H;
    try change (flags.store (defaultConfig env) [])
          with (defaultConfig env);
    (destruct (snd (Parse env)) as [remaining|err'] eqn:Hparse;
     [|discriminate H]);
    rewrite selectNetwork_eq in H;
    match type of H with
    | context [flagCount ?c] =>
        (destruct (Nat.ltb_spec 1 (flagCount c)) as [Hn|Hn];
         [discriminate H|]);
        destruct (setNetwork_fields c (flaggedNetwork c))
          as (Hnet & Hcert & Hmac & Hle & Hdom);
        rewrite Hnet, Hcert, Hmac in H;
        destruct (setPaths_fields (setNetwork c (flaggedNetwork c))
                    (strings.Replace1 (config.TLSCertPath c) "testnet"
                       (flaggedNetwork c))
                    (strings.Replace1 (config.MacaroonPath c) "testnet"
                       (flaggedNetwork c)))
          as (Hnet' & Hle' & Hdom' & _);
        rewrite Hnet', Hle', Hdom', Hnet, Hle, Hdom in H
    end;
    (destruct (MkdirAll env (defaultDataDir env)) eqn:Hmk;
     [discriminate H|]);
    unfold bind in H;
    match type of H with
    | context [initLogRotator env ?p tr] =>
        (destruct (initLogRotator env p tr) as [[[]|m1] t1] eqn:H1;
         [|discriminate H])
    end;
    (destruct (setLogLevels env defaultLogLevel t1) as [[[]|m2] t2] eqn:H2;
     [|discriminate H]);
    match type of H with
    | context [andb ?a ?b] =>
        (destruct (andb a b) eqn:Hcond; [discriminate H|])
    end;
    unfold log.Warn, emit, ret in H; inversion H; subst;
    (split; [reflexivity|]); (split; [lia|]); (split; [reflexivity|]);
    (split; [reflexivity|]); (split; [reflexivity|]);
    (split; [reflexivity|]);
    do 2 eexists; (split; [eassumption|]); (split; [eassumption|]);
    now rewrite ?app_nil_r.
Qed.

(** X11. Two or three network flags together are refused: once the
    parsers are through, [loadConfig] returns the error that names the three
    flags, before the data directory is created and before logging is set
    up: nothing is logged and the log path is left as it was. *)
Theorem loadConfig_rejects_several_networks env tr args :
  (forall msg,
      fst (preParse env)
      <> Some {| flags.help := true; flags.message := msg |}) ->
  (forall err, ParseFile env (configFileOf env) <> flags.IniError err) ->
  snd (Parse env) = Success args ->
  (2 <= flagCount (parsedConfig env))%nat ->
  loadConfig env tr
  = (Done (defaultLogPath env,
           Failure ("loadConfig, mainnet, testnet and simnet params can't be "
                      ++ "used together -- choose one of the three")%string),
     tr).
Proof.
  intros Hpre Hini Hparse Hcount.
  unfold parsedConfig, configFileOf in *. unfold loadConfig.
  set (file := if String.eqb _ "" then _ else _) in *.
  destruct (fst (preParse env)) as [[[|] msg]|] eqn:Hp;
    [now elim (Hpre msg)| |];
    (destruct (ParseFile env file) as [os|err|err] eqn:Hfile;
     [ | |now elim (Hini err)]);
    cbn [fileOptions] in *; cbv beta iota zeta;
    try change (flags.store (defaultConfig env) [])
          with (defaultConfig env) in *;
    rewrite Hparse, selectNetwork_eq;
    match goal with
    | |- context [Nat.ltb 1 ?n] =>
        destruct (Nat.ltb_spec 1 n) as [Hn|Hn]; [reflexivity|lia]
    end.
Qed.

Lemma loadConfig_rejects_several_networks_witness :
  exists err,
    fst (loadConfig
           (Startups.withOptions [flags.MainNet true; flags.SimNet true]) [])
    = Done (defaultLogPath (Startups.withOptions []), Failure err).
Proof.
  eexists.
  rewrite (@loadConfig_rejects_several_networks
             (Startups.withOptions [flags.MainNet true; flags.SimNet true])
             [] []).
  - reflexivity.
  - intros msg. discriminate.
  - intros err. discriminate.
  - reflexivity.
  - cbn. lia.
Defined.

Lemma setPaths_flags c cert mac :
  config.MainNet (setPaths c cert mac) = config.MainNet c
  /\ config.TestNet (setPaths c cert mac) = config.TestNet c
  /\ config.SimNet (setPaths c cert mac) = config.SimNet c
  /\ config.RPCHost (setPaths c cert mac) = config.RPCHost c.
Proof.
  destruct c. cbn. auto.
Qed.

Lemma setNetwork_flags c v :
  config.MainNet (setNetwork c v) = config.MainNet c
  /\ config.TestNet (setNetwork c v) = config.TestNet c
  /\ config.SimNet (setNetwork c v) = config.SimNet c
  /\ config.RPCHost (setNetwork c v) = config.RPCHost c.
Proof.
  destruct c. cbn. auto.
Qed.

Lemma parsedConfig_Network env : config.Network (parsedConfig env) = ""%string.
Proof.
  unfold parsedConfig. now rewrite !store_keeps_Network.
Qed.

(** X12. A configuration that [loadConfig] returns has at most one
    network flag set, and its network is the one the flag names, or the
    empty string when no flag is set: no option sets the network itself.
    When it asks for Let's Encrypt it has a domain. *)
Theorem loadConfig_success_shape env tr logPath cfg args tr' :
  loadConfig env tr = (Done (logPath, Success (cfg, args)), tr') ->
  (flagCount cfg <= 1)%nat
  /\ config.Network cfg
     = (if config.MainNet cfg then "mainnet"
        else if config.TestNet cfg then "testnet"
        else if config.SimNet cfg then "simnet"
        else "")%string
  /\ (config.UseLeHTTPS cfg = true -> config.Domain cfg <> ""%string).
Proof.
  intros H. apply loadConfig_success_inv in H. cbv zeta in H.
  destruct H as (_ & Hcount & _ & -> & _ & Hle & _).
  pose proof (parsedConfig_Network env) as Hnet.
  set (parsed := parsedConfig env) in *.
  match goal with
  | |- context [setPaths ?c ?a ?b] =>
      destruct (setPaths_fields c a b) as (Hn & Hu & Hd & _);
      destruct (setPaths_flags c a b) as (Hm & Ht & Hs & _)
  end.
  destruct (setNetwork_fields parsed (flaggedNetwork parsed))
    as (Hn' & _ & _ & Hu' & Hd').
  destruct (setNetwork_flags parsed (flaggedNetwork parsed))
    as (Hm' & Ht' & Hs' & _).
  unfold flagCount in *.
  rewrite Hn, Hu, Hd, Hm, Ht, Hs, Hn', Hu', Hd', Hm', Ht', Hs'.
  split; [exact Hcount|]. split.
  - unfold flaggedNetwork. rewrite Hnet.
    destruct (config.MainNet parsed), (config.TestNet parsed),
      (config.SimNet parsed); cbn in Hcount; try lia; reflexivity.
  - intros Hule Hdom. rewrite Hule, Hdom in Hle. discriminate Hle.
Qed.

Lemma loadConfig_success_shape_witness :
  exists cfg logPath tr',
    loadConfig (Startups.withOptions [flags.SimNet true]) []
    = (Done (logPath, Success (cfg, [])), tr')
    /\ config.Network cfg = "simnet"%string.
Proof.
  do 3 eexists. split; [vm_compute; reflexivity|].
  destruct (@loadConfig_success_shape
              (Startups.withOptions [flags.SimNet true]) [] _ _ _ _ eq_refl)
    as (_ & H & _).
  exact H.
Defined.

(** ** Replacing "testnet" by the network *)

Lemma HasPrefix_split s p :
  strings.HasPrefix s p = true ->
  (p ++ strings.drop (String.length p) s)%string = s.
Proof.
  revert s. induction p as [|x p IH]; intros s H; [reflexivity|].
  destruct s as [|c s]; [discriminate H|].
  cbn in H. apply andb_prop in H. destruct H as [Hc Hp].
  apply Ascii.eqb_eq in Hc. subst x. cbn. f_equal. now apply IH.
Qed.

(** Replacing a string by itself changes nothing. *)
Lemma Replace1_same s old : strings.Replace1 s old old = s.
Proof.
  induction s as [|c s IH]; rewrite Replace1_eq;
    destruct (strings.HasPrefix _ old) eqn:Hp;
    try (now apply HasPrefix_split); [reflexivity|now rewrite IH].
Qed.

(** X13. With the testnet flag the paths are left alone: the
    configuration [loadConfig] returns has the certificate and macaroon
    paths exactly as parsed, and the log path is the default one. *)
Theorem loadConfig_testnet_keeps_paths env tr logPath cfg args tr' :
  loadConfig env tr = (Done (logPath, Success (cfg, args)), tr') ->
  config.TestNet cfg = true ->
  config.Network cfg = "testnet"%string
  /\ config.TLSCertPath cfg = config.TLSCertPath (parsedConfig env)
  /\ config.MacaroonPath cfg = config.MacaroonPath (parsedConfig env)
  /\ logPath = defaultLogPath env.
Proof.
  intros H Htest.
  apply loadConfig_success_inv in H. cbv zeta in H.
  destruct H as (_ & Hcount' & _ & -> & -> & _).
  set (parsed := parsedConfig env) in *.
  match goal with
  | |- context [setPaths ?c ?a ?b] =>
      destruct (setPaths_fields c a b) as (Hn & _ & _ & Hc & Hm);
      destruct (setPaths_flags c a b) as (Hmn & Htn & Hsn & _)
  end.
  destruct (setNetwork_fields parsed (flaggedNetwork parsed))
    as (Hn' & _).
  destruct (setNetwork_flags parsed (flaggedNetwork parsed))
    as (Hm' & Ht' & Hs' & _).
  rewrite Htn, Ht' in Htest.
  assert (Hflag : flaggedNetwork parsed = "testnet"%string).
  { unfold flaggedNetwork, flagCount in *. rewrite Htest in *.
    destruct (config.SimNet parsed); [|reflexivity].
    destruct (config.MainNet parsed); cbn in Hcount'; lia. }
  rewrite Hn, Hc, Hm, Hn', Hflag, !Replace1_same. auto.
Qed.

Lemma loadConfig_testnet_keeps_paths_witness :
  exists cfg logPath tr',
    loadConfig (Startups.withOptions [flags.TestNet true]) []
    = (Done (logPath, Success (cfg, [])), tr')
    /\ config.MacaroonPath cfg
       = "/home/hub/.dcrlnd/data/chain/decred/testnet/admin.macaroon"%string.
Proof.
  do 3 eexists. split; [vm_compute; reflexivity|].
  destruct (@loadConfig_testnet_keeps_paths
              (Startups.withOptions [flags.TestNet true]) [] _ _ _ _
              eq_refl eq_refl) as (_ & _ & H & _).
  etransitivity; [exact H|reflexivity].
Defined.

(** ** The configuration file and the command line *)

(** X14. A configuration file that cannot be parsed ends [loadConfig]
    with the parser's error and no trace; a file that is not there is
    tolerated: the configuration returned is the one computed from the
    defaults and the options of the command line alone (network, paths
    and log path included), and the warning about the file is the last
    thing [loadConfig] logs. *)
Theorem loadConfig_config_file env tr :
  (forall msg,
      fst (preParse env)
      <> Some {| flags.help := true; flags.message := msg |}) ->
  (forall err,
      ParseFile env (configFileOf env) = flags.IniError err ->
      loadConfig env tr = (Done (defaultLogPath env, Failure err), tr))
  /\ (forall err logPath cfg args tr',
         ParseFile env (configFileOf env) = flags.IniPathError err ->
         loadConfig env tr = (Done (logPath, Success (cfg, args)), tr') ->
         let cl := flags.store (defaultConfig env) (fst (Parse env)) in
         let net := flaggedNetwork cl in
         (exists t, tr' = t ++ [EvLog LvlWarn err])
         /\ cfg = setPaths (setNetwork cl net)
                    (strings.Replace1 (config.TLSCertPath cl) "testnet" net)
                    (strings.Replace1 (config.MacaroonPath cl) "testnet" net)
         /\ logPath = strings.Replace1 (defaultLogPath env) "testnet" net
         /\ snd (Parse env) = Success args).
Proof.
  intros Hpre. split.
  - intros err Hfile. unfold configFileOf in Hfile. unfold loadConfig.
    destruct (fst (preParse env)) as [[[|] msg]|] eqn:Hp;
      [now elim (Hpre msg)| |]; now rewrite Hfile.
  - intros err logPath cfg args tr' Hfile H.
    apply loadConfig_success_inv in H. cbv zeta in H |- *.
    destruct H as (Hargs & _ & _ & Hcfg & Hlog & _ & t1 & t2 & _ & _ & ->).
    rewrite Hfile.
    assert (Hparsed : parsedConfig env
                      = flags.store (defaultConfig env) (fst (Parse env)))
      by (unfold parsedConfig; now rewrite Hfile).
    rewrite Hparsed in Hcfg, Hlog. eauto.
Qed.

Lemma loadConfig_config_file_witness :
  exists cfg logPath t,
    loadConfig (Startups.withOptions [flags.TestNet true]) []
    = (Done (logPath, Success (cfg, [])),
       t ++ [EvLog LvlWarn
               "open /home/hub/.dcrlnhub/dcrlnhub.conf: no such file"])
    /\ config.TestNet cfg = true
    /\ config.Network cfg = "testnet"%string.
Proof.
  destruct (@loadConfig_config_file
              (Startups.withOptions [flags.TestNet true]) [])
    as [_ H].
  - intros msg. discriminate.
  - destruct (H "open /home/hub/.dcrlnhub/dcrlnhub.conf: no such file"%string
                _ _ _ _ eq_refl eq_refl) as ([t Ht] & Hcfg & _).
    do 2 eexists. exists []. split; [vm_compute; reflexivity|].
    split; reflexivity.
Defined.

Lemma store_snoc c os o :
  flags.store c (os ++ [o]) = flags.set (flags.store c os) o.
Proof.
  unfold flags.store. now rewrite fold_left_app.
Qed.

Lemma lastRPCHost_snoc os o :
  lastRPCHost (os ++ [o])
  = match o with flags.RPCHost v => Some v | _ => lastRPCHost os end.
Proof.
  unfold lastRPCHost. now rewrite fold_left_app.
Qed.

Lemma store_RPCHost os c :
  config.RPCHost (flags.store c os)
  = match lastRPCHost os with Some v => v | None => config.RPCHost c end.
Proof.
  induction os as [|o os IH] using rev_ind; [reflexivity|].
  rewrite store_snoc, lastRPCHost_snoc.
  destruct (flags.store c os), o; cbn in *; (reflexivity || exact IH).
Qed.

(** X15. The RPC host of a configuration [loadConfig] returns is the
    last one the command line names; failing that the last one the
    configuration file names; and failing that the empty string: the
    declared default host is not applied. *)
Theorem loadConfig_rpchost env tr logPath cfg args tr' :
  loadConfig env tr = (Done (logPath, Success (cfg, args)), tr') ->
  config.RPCHost cfg
  = match lastRPCHost (fst (Parse env)) with
    | Some v => v
    | None =>
        match lastRPCHost (fileOptions (ParseFile env (configFileOf env))) with
        | Some v => v
        | None => ""%string
        end
    end.
Proof.
  intros H. apply loadConfig_success_inv in H. cbv zeta in H.
  destruct H as (_ & _ & _ & -> & _).
  match goal with
  | |- context [setPaths ?c ?a ?b] =>
      destruct (setPaths_flags c a b) as (_ & _ & _ & ->)
  end.
  match goal with
  | |- context [setNetwork ?c ?v] =>
      destruct (setNetwork_flags c v) as (_ & _ & _ & ->)
  end.
  unfold parsedConfig. now rewrite !store_RPCHost.
Qed.

Lemma loadConfig_rpchost_witness :
  exists cfg logPath tr',
    loadConfig
      (Startups.withFile [flags.RPCHost "10.0.0.1:10009"]
                         [flags.TestNet true; flags.RPCHost "10.0.0.2:10009"])
      []
    = (Done (logPath, Success (cfg, [])), tr')
    /\ config.RPCHost cfg = "10.0.0.2:10009"%string.
Proof.
  do 3 eexists. split; [vm_compute; reflexivity|].
  etransitivity;
    [exact (@loadConfig_rpchost
              (Startups.withFile [flags.RPCHost "10.0.0.1:10009"]
                 [flags.TestNet true; flags.RPCHost "10.0.0.2:10009"])
              [] _ _ _ _ eq_refl)|reflexivity].
Defined.

(** ** Where the replacement lands *)

Lemma drop_app a b k :
  (k <= String.length a)%nat ->
  strings.drop k (a ++ b)%string = (strings.drop k a ++ b)%string.
Proof.
  revert a. induction k as [|k IH]; intros a Hk; [reflexivity|].
  destruct a as [|c a]; cbn in Hk; [lia|].
  cbn. apply IH. lia.
Qed.

Lemma take_app a b k :
  (k <= String.length a)%nat -> take k (a ++ b)%string = take k a.
Proof.
  revert a. induction k as [|k IH]; intros a Hk.
  - destruct a; reflexivity.
  - destruct a as [|c a]; cbn in Hk; [lia|].
    cbn. f_equal. apply IH. lia.
Qed.

Lemma HasPrefix_cons c s x p :
  strings.HasPrefix (String c s) (String x p)
  = Ascii.eqb c x && strings.HasPrefix s p.
Proof.
  reflexivity.
Qed.

Lemma HasPrefix_nil s : strings.HasPrefix s "" = true.
Proof.
  destruct s; reflexivity.
Qed.

Lemma HasPrefix_app_l a b p :
  strings.HasPrefix a p = true -> strings.HasPrefix (a ++ b) p = true.
Proof.
  revert a. induction p as [|x p IH]; intros a H; [apply HasPrefix_nil|].
  destruct a as [|c a]; [discriminate H|].
  cbn in H |- *. apply andb_prop in H. destruct H as [-> Hp].
  cbn. now apply IH.
Qed.

(** A pattern without a slash does not match across a slash. *)
Lemma HasPrefix_app_slash a b p :
  mentions "/" p = false ->
  strings.HasPrefix (a ++ String "/" b) p = true ->
  strings.HasPrefix a p = true.
Proof.
  revert a. induction p as [|x p IH]; intros a Hno H; [apply HasPrefix_nil|].
  cbn [mentions] in Hno. apply orb_false_elim in Hno.
  destruct Hno as [Hx Hp].
  destruct a as [|c a].
  - change (strings.HasPrefix (String "/" b) (String x p) = true) in H.
    rewrite HasPrefix_cons in H. apply andb_prop in H. destruct H as [Hs _].
    apply Ascii.eqb_eq in Hs. subst x. now rewrite Ascii.eqb_refl in Hx.
  - change (strings.HasPrefix (String c (a ++ String "/" b)) (String x p)
            = true) in H.
    rewrite HasPrefix_cons in H |- *.
    apply andb_prop in H. destruct H as [-> Hrest].
    cbn [andb]. now apply IH.
Qed.

Lemma HasPrefix_length a p :
  strings.HasPrefix a p = true -> (String.length p <= String.length a)%nat.
Proof.
  revert a. induction p as [|x p IH]; intros a H; cbn; [lia|].
  destruct a as [|c a]; [discriminate H|].
  cbn in H. apply andb_prop in H. destruct H as [_ Hp].
  apply IH in Hp. cbn. lia.
Qed.

Lemma occursAt_bound a x p k :
  occursAt a (String x p) k = true ->
  (k + String.length (String x p) <= String.length a)%nat.
Proof.
  unfold occursAt. revert a. induction k as [|k IH]; intros a H.
  - apply HasPrefix_length in H. cbn [strings.drop] in H. lia.
  - destruct a as [|c a]; [discriminate H|].
    cbn [strings.drop] in H. apply IH in H. cbn in H |- *. lia.
Qed.

Lemma occursAt_app_slash a b p j :
  mentions "/" p = false ->
  (j <= String.length a)%nat ->
  occursAt (a ++ String "/" b) p j = true -> occursAt a p j = true.
Proof.
  unfold occursAt. intros Hno Hj H. rewrite drop_app in H by exact Hj.
  now apply HasPrefix_app_slash in H.
Qed.

(** Without an occurrence before the end of [a], the replacement takes
    place in what follows [a]. *)
Lemma Replace1_skip a b old new :
  (forall j, (j < String.length a)%nat -> occursAt (a ++ b) old j = false) ->
  strings.Replace1 (a ++ b) old new
  = (a ++ strings.Replace1 b old new)%string.
Proof.
  induction a as [|c a IH]; intros H; [reflexivity|].
  rewrite Replace1_eq.
  pose proof (H 0%nat) as H0. unfold occursAt in H0.
  cbn [strings.drop] in H0. rewrite H0 by (cbn; lia).
  cbn [String.append]. f_equal. apply IH.
  intros j Hj. apply (H (S j)). cbn. lia.
Qed.

Lemma Replace1_in_tail dir tail new :
  (forall k, occursAt dir "testnet" k = false) ->
  strings.Replace1 (dir ++ String "/" tail) "testnet" new
  = (dir ++ strings.Replace1 (String "/" tail) "testnet" new)%string.
Proof.
  intros Hdir. apply Replace1_skip. intros j Hj.
  destruct (occursAt (dir ++ String "/" tail) "testnet" j) eqn:Ho;
    [|reflexivity].
  apply occursAt_app_slash in Ho; [|reflexivity|lia].
  now rewrite Hdir in Ho.
Qed.

Lemma Replace1_in_dir dir tail new k :
  firstAt dir "testnet" k ->
  strings.Replace1 (dir ++ String "/" tail) "testnet" new
  = (take k dir ++ new ++ strings.drop (k + 7) dir ++ String "/" tail)%string.
Proof.
  intros [Hk Hlt].
  pose proof (@occursAt_bound dir "t" "estnet" k Hk) as Hb. cbn in Hb.
  rewrite (@Replace1_first (dir ++ String "/" tail) "testnet" new k).
  - rewrite take_app by lia. cbn [String.length].
    now rewrite drop_app by lia.
  - split.
    + unfold occursAt in *. rewrite drop_app by lia.
      now apply HasPrefix_app_l.
    + intros j Hj.
      destruct (occursAt (dir ++ String "/" tail) "testnet" j) eqn:Ho;
        [|reflexivity].
      apply occursAt_app_slash in Ho; [|reflexivity|lia].
      now rewrite (Hlt j Hj) in Ho.
Qed.

Lemma loadConfig_default_paths env tr logPath cfg args tr' :
  loadConfig env tr = (Done (logPath, Success (cfg, args)), tr') ->
  forallb (fun o => negb (namesPath o))
    (fileOptions (ParseFile env (configFileOf env)) ++ fst (Parse env))
  = true ->
  config.TLSCertPath cfg
  = strings.Replace1 (defaultDcrlndTLSCertPath env) "testnet"
                     (config.Network cfg)
  /\ config.MacaroonPath cfg
     = strings.Replace1 (defaultDcrlndMacaroonPath env) "testnet"
                        (config.Network cfg)
  /\ logPath
     = strings.Replace1 (defaultLogPath env) "testnet" (config.Network cfg).
Proof.
  intros H Hopts. apply loadConfig_success_inv in H. cbv zeta in H.
  destruct H as (_ & _ & _ & -> & -> & _).
  match goal with
  | |- context [setPaths ?c ?a ?b] =>
      destruct (setPaths_fields c a b) as (-> & _ & _ & -> & ->)
  end.
  match goal with
  | |- context [setNetwork ?c ?v] =>
      destruct (setNetwork_fields c v) as (-> & _)
  end.
  rewrite forallb_app in Hopts. apply andb_prop in Hopts.
  destruct Hopts as [Hf Hc].
  unfold parsedConfig.
  destruct (store_keeps_paths (fst (Parse env))
              (flags.store (defaultConfig env)
                 (fileOptions (ParseFile env (configFileOf env)))) Hc)
    as [-> ->].
  destruct (store_keeps_paths _ (defaultConfig env) Hf) as [-> ->].
  auto.
Qed.

(** X16. The selected network goes into the default paths. With no
    option naming a path, a slash as path separator and directories whose
    names do not contain "testnet", the configuration [loadConfig] returns
    has the macaroon path [<dcrlnd dir>/data/chain/decred/<network>/admin.macaroon],
    the certificate path is untouched, and the log path is
    [<data dir>/logs/decred/<network>/dcrlnhub.log]. *)
Theorem loadConfig_paths_of_network env tr logPath cfg args tr' :
  loadConfig env tr = (Done (logPath, Success (cfg, args)), tr') ->
  forallb (fun o => negb (namesPath o))
    (fileOptions (ParseFile env (configFileOf env)) ++ fst (Parse env))
  = true ->
  defaultDcrlndTLSCertPath env = (defaultDcrlndDir env ++ "/tls.cert")%string ->
  defaultDcrlndMacaroonPath env
  = (defaultDcrlndDir env ++ macaroonTail)%string ->
  defaultLogPath env = (defaultDataDir env ++ logTail)%string ->
  (forall k, occursAt (defaultDcrlndDir env) "testnet" k = false) ->
  (forall k, occursAt (defaultDataDir env) "testnet" k = false) ->
  config.TLSCertPath cfg = (defaultDcrlndDir env ++ "/tls.cert")%string
  /\ config.MacaroonPath cfg
     = (defaultDcrlndDir env ++ "/data/chain/decred/"
          ++ config.Network cfg ++ "/admin.macaroon")%string
  /\ logPath
     = (defaultDataDir env ++ "/logs/decred/"
          ++ config.Network cfg ++ "/dcrlnhub.log")%string.
Proof.
  intros H Hopts Hcert Hmac Hlog Hdir Hdata.
  destruct (@loadConfig_default_paths env tr logPath cfg args tr' H Hopts)
    as (-> & -> & ->).
  rewrite Hcert, Hmac, Hlog. unfold macaroonTail, logTail.
  rewrite !Replace1_in_tail by assumption.
  repeat split.
Qed.

Lemma loadConfig_paths_of_network_witness :
  exists cfg logPath tr',
    loadConfig (Startups.withOptions [flags.MainNet true]) []
    = (Done (logPath, Success (cfg, [])), tr')
    /\ config.MacaroonPath cfg
       = "/home/hub/.dcrlnd/data/chain/decred/mainnet/admin.macaroon"%string
    /\ logPath = "/home/hub/.dcrlnhub/logs/decred/mainnet/dcrlnhub.log"%string.
Proof.
  do 3 eexists. split; [vm_compute; reflexivity|].
  destruct (@loadConfig_paths_of_network
              (Startups.withOptions [flags.MainNet true]) [] _ _ _ _
              eq_refl eq_refl eq_refl eq_refl eq_refl) as (_ & Hm & Hl).
  - intros k. unfold occursAt.
    change (defaultDcrlndDir (Startups.withOptions [flags.MainNet true]))
      with "/home/hub/.dcrlnd"%string.
    do 18 (destruct k as [|k]; [reflexivity|]). reflexivity.
  - intros k. unfold occursAt.
    change (defaultDataDir (Startups.withOptions [flags.MainNet true]))
      with "/home/hub/.dcrlnhub"%string.
    do 20 (destruct k as [|k]; [reflexivity|]). reflexivity.
  - split; [etransitivity; [exact Hm|reflexivity]
           |etransitivity; [exact Hl|reflexivity]].
Defined.

(** X17. The replacement takes the leftmost "testnet", wherever it is:
    when the name of the dcrlnd directory contains "testnet", that
    occurrence is the one replaced by the network, and the network
    directory of the default macaroon path stays [testnet]. *)
Theorem loadConfig_replaces_in_directory env tr logPath cfg args tr' k :
  loadConfig env tr = (Done (logPath, Success (cfg, args)), tr') ->
  forallb (fun o => negb (namesPath o))
    (fileOptions (ParseFile env (configFileOf env)) ++ fst (Parse env))
  = true ->
  defaultDcrlndMacaroonPath env
  = (defaultDcrlndDir env ++ macaroonTail)%string ->
  firstAt (defaultDcrlndDir env) "testnet" k ->
  config.MacaroonPath cfg
  = (take k (defaultDcrlndDir env) ++ config.Network cfg
       ++ strings.drop (k + 7) (defaultDcrlndDir env)
       ++ "/data/chain/decred/testnet/admin.macaroon")%string.
Proof.
  intros H Hopts Hmac Hk.
  destruct (@loadConfig_default_paths env tr logPath cfg args tr' H Hopts)
    as (_ & -> & _).
  rewrite Hmac. unfold macaroonTail.
  now rewrite (@Replace1_in_dir _ _ _ _ Hk).
Qed.

Lemma loadConfig_replaces_in_directory_witness :
  exists cfg logPath tr',
    loadConfig (Startups.ofUserTestnet [flags.MainNet true]) []
    = (Done (logPath, Success (cfg, [])), tr')
    /\ config.MacaroonPath cfg
       = "/home/mainnet/.dcrlnd/data/chain/decred/testnet/admin.macaroon"%string.
Proof.
  do 3 eexists. split; [vm_compute; reflexivity|].
  etransitivity;
    [apply (@loadConfig_replaces_in_directory
              (Startups.ofUserTestnet [flags.MainNet true]) [] _ _ _ _ 6%nat
              eq_refl eq_refl eq_refl)
    |reflexivity].
  split; [reflexivity|].
  intros j Hj. do 6 (destruct j as [|j]; [reflexivity|]). lia.
Defined.

(** ** Start-up as a whole *)

(** A construction that panics does so in the initial fetch, on a
    GetInfo answer without a chain entry. *)
Lemma newLightningHub_panic_inv sys cfg template tr msg tr' :
  newLightningHub sys cfg template tr = (Panic msg, tr') ->
  msg = indexPanic /\ tr' = tr ++ [EvRPC lnrpc.MGetInfo false].
Proof.
  intros H. unfold newLightningHub in H.
  destruct (NewClientTLSFromFile sys _) as [creds|e]; [|discriminate H].
  destruct (ReadFile sys _) as [macBytes|e]; [|discriminate H].
  destruct (UnmarshalBinary sys macBytes) as [mac|e]; [|discriminate H].
  destruct (Dial sys _ creds mac) as [lnd|e]; [|discriminate H].
  unfold bind at 1 in H.
  destruct (fetchHomePage_run lnd cfg tr) as (out & evs & E & R).
  rewrite E in H.
  destruct out as [[ctx|err]|m]; try discriminate H.
  inversion H; subst. inversion R; subst. auto.
Qed.

(** X18. The ways [main] can go.  It gets a hub to serve only after
    [loadConfig], the parsing of the templates and [newLightningHub] all
    succeeded, and the hub holds the configuration [loadConfig] returned,
    the parsed templates and a snapshot of the configuration's network.
    It ends without a hub after a failed [loadConfig], with nothing
    further, or after a failed [newLightningHub], the critical log line
    being the last event.  It panics when [loadConfig] does, when the
    templates do not parse (after [loadConfig], before the node is asked
    anything), or when [newLightningHub] does, which is the index panic of
    the initial fetch, and then no critical line is logged. *)
Theorem main_outcomes env sys ParseGlob tr :
  (forall hub tr',
      main env sys ParseGlob tr = (Done (Some hub), tr') ->
      exists logPath args t,
        loadConfig env tr
        = (Done (logPath, Success (lightningHub.cfg hub, args)), t)
        /\ ParseGlob "static/*.html" = Success (lightningHub.template hub)
        /\ newLightningHub sys (lightningHub.cfg hub)
                           (lightningHub.template hub) t
           = (Done (Success hub), tr')
        /\ templateContext.Network (lightningHub.context hub)
           = config.Network (lightningHub.cfg hub))
  /\ (forall tr',
         main env sys ParseGlob tr = (Done None, tr') ->
         (exists logPath err,
             loadConfig env tr = (Done (logPath, Failure err), tr'))
         \/ (exists logPath cfg args t hubTemplate t' err,
                loadConfig env tr = (Done (logPath, Success (cfg, args)), t)
                /\ ParseGlob "static/*.html" = Success hubTemplate
                /\ newLightningHub sys cfg hubTemplate t
                   = (Done (Failure err), t')
                /\ tr' = t' ++ [EvLog LvlCritical
                                  ("unable to create hub: " ++ err)%string]))
  /\ (forall msg tr',
         main env sys ParseGlob tr = (Panic msg, tr') ->
         loadConfig env tr = (Panic msg, tr')
         \/ (exists logPath cfg args,
                loadConfig env tr = (Done (logPath, Success (cfg, args)), tr')
                /\ ParseGlob "static/*.html" = Failure msg)
         \/ (exists logPath cfg args t hubTemplate,
                loadConfig env tr = (Done (logPath, Success (cfg, args)), t)
                /\ ParseGlob "static/*.html" = Success hubTemplate
                /\ newLightningHub sys cfg hubTemplate t = (Panic msg, tr')
                /\ msg = indexPanic
                /\ tr' = t ++ [EvRPC lnrpc.MGetInfo false])).
Proof.
  split; [|split].
  - intros hub tr' H. unfold main in H. unfold bind at 1 in H.
    destruct (loadConfig env tr) as [[[logPath [[cfg args]|err]]|msg] t]
      eqn:Hload; cbn [snd] in H; try discriminate H.
    destruct (ParseGlob "static/*.html") as [hubTemplate|perr] eqn:Hglob;
      [|discriminate H].
    unfold bind at 1 in H.
    destruct (newLightningHub sys cfg hubTemplate t) as [[[h|err]|msg] t']
      eqn:Hnew; cbn in H; try discriminate H.
    inversion H; subst h t'; clear H.
    destruct (newLightningHub_inv _ _ _ _ Hnew)
      as (creds & macBytes & mac & Hc & Hr & Hu & Hd & E).
    pose proof Hnew as Hnew'.
    rewrite (@newLightningHub_dialled sys cfg hubTemplate t _ _ _ _
               Hc Hr Hu Hd), E in Hnew'.
    assert (Hcfg : lightningHub.cfg hub = cfg
                   /\ lightningHub.template hub = hubTemplate)
      by (inversion Hnew' as [Hh]; split; reflexivity).
    destruct Hcfg as [<- <-]. exists logPath, args, t.
    split; [reflexivity|]. split; [reflexivity|]. split; [exact Hnew|].
    apply fetchHomePage_inv in E. destruct E as (evs & _ & R).
    inversion R as [| | | | |info ch bal Hi Hn Hch Hb Hctx Hevs].
    reflexivity.
  - intros tr' H. unfold main in H. unfold bind at 1 in H.
    destruct (loadConfig env tr) as [[[logPath [[cfg args]|err]]|msg] t]
      eqn:Hload; cbn [snd] in H; try discriminate H.
    + destruct (ParseGlob "static/*.html") as [hubTemplate|perr] eqn:Hglob;
        [|discriminate H].
      unfold bind at 1 in H.
      destruct (newLightningHub sys cfg hubTemplate t) as [[[h|err]|msg] t']
        eqn:Hnew; cbn in H; try discriminate H.
      inversion H; subst tr'. right.
      exists logPath, cfg, args, t, hubTemplate, t', err. auto.
    + unfold ret in H. inversion H; subst tr'. left. eauto.
  - intros msg tr' H. unfold main in H. unfold bind at 1 in H.
    destruct (loadConfig env tr) as [[[logPath [[cfg args]|err]]|m] t]
      eqn:Hload; cbn [snd] in H; try discriminate H.
    + destruct (ParseGlob "static/*.html") as [hubTemplate|perr] eqn:Hglob.
      * unfold bind at 1 in H.
        destruct (newLightningHub sys cfg hubTemplate t) as [[[h|err]|m] t']
          eqn:Hnew; cbn in H; try discriminate H.
        inversion H; subst m t'. right. right.
        destruct (newLightningHub_panic_inv _ _ _ _ Hnew) as [Hmsg Htr].
        exists logPath, cfg, args, t, hubTemplate. auto.
      * unfold panic in H. inversion H; subst. right. left. eauto.
    + inversion H; subst. now left.
Qed.

Lemma main_outcomes_witness :
  exists hub tr',
    main (Startups.withOptions [flags.TestNet true])
         (Examples.machine Examples.testnetNode)
         (fun _ => Success ["index.html"%string]) []
    = (Done (Some hub), tr')
    /\ templateContext.Network (lightningHub.context hub)
       = config.Network (lightningHub.cfg hub).
Proof.
  do 2 eexists. split; [vm_compute; reflexivity|].
  destruct (main_outcomes (Startups.withOptions [flags.TestNet true])
              (Examples.machine Examples.testnetNode)
              (fun _ => Success ["index.html"%string]) []) as [H _].
  destruct (H _ _ eq_refl) as (logPath & args & t & _ & _ & _ & Hnet).
  exact Hnet.
Defined.
